(** * Health state machine of the load balancer's servers

    A shallow embedding of [server.go] (package [loadbalancer]): the
    [Server], [ServerGroup] and [ServerOptions] structs and the methods
    [UserData], [SetOnline] and [SetOffline], followed by the properties
    of the failure counter, the down flag, the failure timestamp and the
    balancer's count of online primary servers. *)

From Stdlib Require Import ZArith Lia Bool String.
From Stdlib Require Import Ascii.
From stdpp Require Import base option list gmap strings.

Set Implicit Arguments.
Local Open Scope Z_scope.

(** ** Go's [int]

    The counters are Go [int]s, taken at 64 bits; [+=] and [-=] wrap
    around in two's complement. *)
Module GoInt.

Definition int_min : Z := - 2 ^ 63.
Definition int_max : Z := 2 ^ 63 - 1.

Definition is_int (z : Z) : Prop := int_min <= z <= int_max.

Definition wrap (z : Z) : Z := (z + 2 ^ 63) mod 2 ^ 64 - 2 ^ 63.

Definition add (a b : Z) : Z := wrap (a + b).
Definition sub (a b : Z) : Z := wrap (a - b).

End GoInt.

(** ** Instants and durations

    [time.Time] values are points on an unbounded line of nanoseconds and
    a [time.Duration] is a signed number of nanoseconds; [time.Now()] is
    an argument of the method that reads the clock. *)
Definition Time : Type := Z.
Definition Duration : Type := Z.

(** [t.Add(d)] *)
Definition time_Add (t : Time) (d : Duration) : Time := t + d.

(** [t.After(u)]: [t] is strictly later than [u]. *)
Definition time_After (t u : Time) : bool := u <? t.

(** ** Structs *)

Record ServerOptions : Type := {
  Weight : Z;
  MaxFails : Z;
  FailTimeout : Duration;
  IsBackup : bool
}.

(** A [*Server]: the group whose [srvList] holds the struct and the
    position in that slice. *)
Record ServerRef : Type := {
  refBackup : bool;
  refPos : nat
}.

#[local] Instance ServerRef_eq_dec : EqDecision ServerRef.
Proof. solve_decision. Defined.

Inductive EventType : Type :=
| ServerUpEvent
| ServerDownEvent.

(** Go's [error] values, as made by [errors.New]. *)
Inductive error : Type :=
| errorString (msg : string).

(** An argument in a call of [raiseEvent]. *)
Inductive Arg : Type :=
| ArgEvent (ev : EventType)
| ArgServer (srv : ServerRef)
| ArgError (err : error).

(** What a method does to the balancer's mutex and event dispatcher, in
    program order. *)
Inductive Action : Type :=
| Lock
| Unlock
| RaiseEvent (args : list Arg).

Section WithUserData.

(** The type behind [interface{}] of [userData]. *)
Variable UD : Type.

Record Server : Type := {
  opts : ServerOptions;
  index : Z;
  isDown : bool;
  failCounter : Z;
  failTimestamp : Time;
  userData : UD
}.

Record ServerGroup : Type := {
  srvList : list Server;
  currServerIdx : Z;
  currServerWeight : Z
}.

(** Modelled from the spec: the [LoadBalancer] struct is declared outside
    [server.go]; it owns one primary and one backup [ServerGroup] and the
    counter [primaryOnlineCount]. Its mutex and its event handler are
    represented by the [Action]s a method performs. *)
Record LoadBalancer : Type := {
  primaryGroup : ServerGroup;
  backupGroup : ServerGroup;
  primaryOnlineCount : Z
}.

(** *** Field assignments *)

Definition set_isDown (b : bool) (s : Server) : Server :=
  {| opts := opts s; index := index s; isDown := b;
     failCounter := failCounter s; failTimestamp := failTimestamp s;
     userData := userData s |}.

Definition set_failCounter (c : Z) (s : Server) : Server :=
  {| opts := opts s; index := index s; isDown := isDown s;
     failCounter := c; failTimestamp := failTimestamp s;
     userData := userData s |}.

Definition set_failTimestamp (t : Time) (s : Server) : Server :=
  {| opts := opts s; index := index s; isDown := isDown s;
     failCounter := failCounter s; failTimestamp := t;
     userData := userData s |}.

Definition set_srvList (l : list Server) (g : ServerGroup) : ServerGroup :=
  {| srvList := l; currServerIdx := currServerIdx g;
     currServerWeight := currServerWeight g |}.

(** *** Dereferencing a [*Server] *)

Definition group (lb : LoadBalancer) (backup : bool) : ServerGroup :=
  if backup then backupGroup lb else primaryGroup lb.

Definition getServer (lb : LoadBalancer) (srv : ServerRef) : option Server :=
  srvList (group lb (refBackup srv)) !! refPos srv.

(** Writes the fields of [*srv] and [srv.lb.primaryOnlineCount] back. *)
Definition store (lb : LoadBalancer) (srv : ServerRef) (s : Server) (count : Z)
  : LoadBalancer :=
  if refBackup srv then
    {| primaryGroup := primaryGroup lb;
       backupGroup := set_srvList (<[refPos srv := s]> (srvList (backupGroup lb)))
                                  (backupGroup lb);
       primaryOnlineCount := count |}
  else
    {| primaryGroup := set_srvList (<[refPos srv := s]> (srvList (primaryGroup lb)))
                                   (primaryGroup lb);
       backupGroup := backupGroup lb;
       primaryOnlineCount := count |}.

(** ** Methods of [Server] *)

(** [func (srv *Server) UserData() interface{}] *)
Definition UserData (s : Server) : UD := userData s.

(** The guard both setters start with: only primary servers with a
    failure threshold change status. *)
Definition untracked (s : Server) : bool :=
  (MaxFails (opts s) =? 0) || IsBackup (opts s).

(** The part of [SetOnline] between [Lock] and [Unlock], on the fields of
    the server and on [srv.lb.primaryOnlineCount]; the third component is
    [notifyUp]. *)
Definition SetOnline_locked (s : Server) (count : Z) : Server * Z * bool :=
  let s := set_failCounter 0 s in
  if isDown s then
    (set_isDown false s, GoInt.add count 1, true)
  else
    (s, count, false).

(** [func (srv *Server) SetOnline()]. A reference to no server of the
    balancer has no behaviour ([None]). *)
Definition SetOnline (srv : ServerRef) (lb : LoadBalancer)
  : option (LoadBalancer * list Action) :=
  s ← getServer lb srv;
  if untracked s then Some (lb, [])
  else
    let '(s', count, notifyUp) := SetOnline_locked s (primaryOnlineCount lb) in
    Some (store lb srv s' count,
          [Lock; Unlock] ++
          (if notifyUp
           then [RaiseEvent [ArgEvent ServerUpEvent; ArgServer srv]]
           else [])).

(** The failure-window bookkeeping of [SetOffline]: the increment of the
    counter, then either the deadline of a first failure or the reset of
    a counter whose window has passed. *)
Definition count_failure (now : Time) (s : Server) : Server :=
  let s := set_failCounter (GoInt.add (failCounter s) 1) s in
  if failCounter s =? 1 then
    set_failTimestamp (time_Add now (FailTimeout (opts s))) s
  else if time_After now (failTimestamp s) then
    set_failCounter 1 s
  else
    s.

(** The part of [SetOffline] between [Lock] and [Unlock]; the third
    component is [notifyDown]. *)
Definition SetOffline_locked (now : Time) (s : Server) (count : Z)
  : Server * Z * bool :=
  if negb (isDown s) && (failCounter s <? MaxFails (opts s)) then
    let s := count_failure now s in
    if failCounter s =? MaxFails (opts s) then
      (set_failTimestamp (time_Add now (FailTimeout (opts s))) (set_isDown true s),
       GoInt.sub count 1, true)
    else
      (s, count, false)
  else
    (s, count, false).

(** [func (srv *Server) SetOffline()], with the reading of [time.Now()]
    as [now]. *)
Definition SetOffline (srv : ServerRef) (now : Time) (lb : LoadBalancer)
  : option (LoadBalancer * list Action) :=
  s ← getServer lb srv;
  if untracked s then Some (lb, [])
  else
    let '(s', count, notifyDown) :=
      SetOffline_locked now s (primaryOnlineCount lb) in
    Some (store lb srv s' count,
          [Lock; Unlock] ++
          (if notifyDown
           then [RaiseEvent [ArgEvent ServerDownEvent; ArgServer srv]]
           else [])).

(** ** Sequences of calls *)

Inductive Call : Type :=
| CallSetOnline (srv : ServerRef)
| CallSetOffline (srv : ServerRef) (now : Time).

Definition call (c : Call) (lb : LoadBalancer)
  : option (LoadBalancer * list Action) :=
  match c with
  | CallSetOnline srv => SetOnline srv lb
  | CallSetOffline srv now => SetOffline srv now lb
  end.

Fixpoint run (cs : list Call) (lb : LoadBalancer)
  : option (LoadBalancer * list Action) :=
  match cs with
  | [] => Some (lb, [])
  | c :: cs =>
      '(lb1, tr1) ← call c lb;
      '(lb2, tr2) ← run cs lb1;
      Some (lb2, tr1 ++ tr2)
  end.

(** What a call does to the server it is made on and to
    [primaryOnlineCount], with its notification flag. *)
Definition call_effect (c : Call) (s : Server) (count : Z) : Server * Z * bool :=
  if untracked s then (s, count, false)
  else
    match c with
    | CallSetOnline _ => SetOnline_locked s count
    | CallSetOffline _ now => SetOffline_locked now s count
    end.

(** The server after a failure reported at [now], and after failures
    reported at the instants [nows] in turn. *)
Definition after_failure (now : Time) (s : Server) : Server :=
  (SetOffline_locked now s 0).1.1.

Fixpoint after_failures (nows : list Time) (s : Server) : Server :=
  match nows with
  | [] => s
  | now :: nows => after_failures nows (after_failure now s)
  end.

(** The server behind [srv] after the calls [cs]. *)
Definition after_calls (lb : LoadBalancer) (cs : list Call) (srv : ServerRef)
  : option Server :=
  '(lb', _) ← run cs lb;
  getServer lb' srv.

(** The target of a call. *)
Definition call_target (c : Call) : ServerRef :=
  match c with
  | CallSetOnline srv => srv
  | CallSetOffline srv _ => srv
  end.

(** The [raiseEvent] calls of a trace, as their argument lists. *)
Fixpoint events (tr : list Action) : list (list Arg) :=
  match tr with
  | [] => []
  | RaiseEvent args :: tr => args :: events tr
  | _ :: tr => events tr
  end.

(** ** Creation *)

(** Modelled from the spec: [Add], which builds the [Server], is outside
    [server.go]. A new server carries the options, index and user data it
    was given and starts [Up], with the zero values of Go in its other
    health fields. *)
Definition newServer (o : ServerOptions) (idx : Z) (ud : UD) : Server :=
  {| opts := o; index := idx; isDown := false; failCounter := 0;
     failTimestamp := 0; userData := ud |}.

(** ** Predicates of the specification *)

(** The failure counter stays within the threshold, and a server that is
    down has used up its threshold. *)
Definition health_inv (s : Server) : Prop :=
  0 <= failCounter s <= MaxFails (opts s) /\
  (isDown s = true -> failCounter s = MaxFails (opts s)).

(** [MaxFails] is a value of Go's [int]. *)
Definition threshold_typed (s : Server) : Prop :=
  GoInt.is_int (MaxFails (opts s)).

(** What a server adds to the number of online servers. *)
Definition online (s : Server) : Z := if isDown s then 0 else 1.

(** The number of servers of a slice that are not down. *)
Fixpoint onlineCount (l : list Server) : Z :=
  match l with
  | [] => 0
  | s :: l => online s + onlineCount l
  end.

Definition count_inv (lb : LoadBalancer) : Prop :=
  primaryOnlineCount lb = onlineCount (srvList (primaryGroup lb)).

(** Each group holds the servers of its tier, and the length of the
    primary slice is an [int]. *)
Definition groups_wf (lb : LoadBalancer) : Prop :=
  Forall (fun s => IsBackup (opts s) = false) (srvList (primaryGroup lb)) /\
  Forall (fun s => IsBackup (opts s) = true) (srvList (backupGroup lb)) /\
  Z.of_nat (length (srvList (primaryGroup lb))) <= GoInt.int_max.

(** The change of [primaryOnlineCount] that goes with a change of the
    down flag from [before] to [after]. *)
Definition transition_delta (before after : bool) : Z :=
  match before, after with
  | true, false => 1
  | false, true => -1
  | _, _ => 0
  end.

(** What [Add] fixes for a server. *)
Definition config (s : Server) : ServerOptions * Z * UD :=
  (opts s, index s, userData s).

Definition same_group_config (g g' : ServerGroup) : Prop :=
  config <$> srvList g = config <$> srvList g' /\
  currServerIdx g = currServerIdx g' /\
  currServerWeight g = currServerWeight g'.

Definition same_config (lb lb' : LoadBalancer) : Prop :=
  same_group_config (primaryGroup lb) (primaryGroup lb') /\
  same_group_config (backupGroup lb) (backupGroup lb').

(** Everything but the server behind [srv] and [primaryOnlineCount] is
    the same in [lb] and [lb']. *)
Definition same_but (srv : ServerRef) (lb lb' : LoadBalancer) : Prop :=
  (forall srv', srv' <> srv -> getServer lb' srv' = getServer lb srv') /\
  same_config lb lb'.

Definition call_valid (lb : LoadBalancer) (c : Call) : Prop :=
  is_Some (getServer lb (call_target c)).

End WithUserData.

(** ** Traces *)

(** The mutex discipline of a trace, read from a state of the mutex
    ([held]): [Lock] only on a free mutex, [Unlock] only on a held one,
    [raiseEvent] only while it is free, and the mutex free at the end. *)
Fixpoint lock_safe (held : bool) (tr : list Action) : bool :=
  match tr with
  | [] => negb held
  | Lock :: tr => negb held && lock_safe true tr
  | Unlock :: tr => held && lock_safe false tr
  | RaiseEvent _ :: tr => negb held && lock_safe false tr
  end.

(** The event type of a [raiseEvent] call made for the server [srv]. *)
Definition event_of (srv : ServerRef) (args : list Arg) : option EventType :=
  match args with
  | [ArgEvent ev; ArgServer r] => if decide (r = srv) then Some ev else None
  | _ => None
  end.

(** The events a trace raises for [srv], in order. *)
Definition events_for (srv : ServerRef) (tr : list Action) : list EventType :=
  omap (event_of srv) (events tr).

(** Reads a list of events of one server from its down flag: a down
    event is expected only while up and an up event only while down. The
    result is the down flag after the events. *)
Fixpoint alternating (down : bool) (evs : list EventType) : option bool :=
  match evs with
  | [] => Some down
  | ServerDownEvent :: evs => if down then None else alternating true evs
  | ServerUpEvent :: evs => if down then alternating false evs else None
  end.

(** The event that goes with a change of the down flag. *)
Definition transition_events (before after : bool) : list EventType :=
  match before, after with
  | true, false => [ServerUpEvent]
  | false, true => [ServerDownEvent]
  | _, _ => []
  end.

(** ** Regular expressions

    What [regexp.MatchString] needs for the pattern of [AddSource]:
    expressions over classes of bytes, matched by derivatives. A Go string
    is its sequence of bytes; the classes of the pattern either hold of
    single ASCII bytes or exclude four of them, so matching bytes and
    matching runes accept the same strings. *)

Inductive regex : Type :=
| Never
| Empty
| Class (p : ascii -> bool)
| Cat (r1 r2 : regex)
| Alt (r1 r2 : regex)
| Star (r : regex).

Fixpoint nullable (r : regex) : bool :=
  match r with
  | Never => false
  | Empty => true
  | Class _ => false
  | Cat r1 r2 => nullable r1 && nullable r2
  | Alt r1 r2 => nullable r1 || nullable r2
  | Star _ => true
  end.

Fixpoint deriv (c : ascii) (r : regex) : regex :=
  match r with
  | Never => Never
  | Empty => Never
  | Class p => if p c then Empty else Never
  | Cat r1 r2 =>
      if nullable r1 then Alt (Cat (deriv c r1) r2) (deriv c r2)
      else Cat (deriv c r1) r2
  | Alt r1 r2 => Alt (deriv c r1) (deriv c r2)
  | Star r => Cat (deriv c r) (Star r)
  end.

(** The whole of [s] matches [r]. *)
Fixpoint full_match (r : regex) (s : list ascii) : bool :=
  match s with
  | [] => nullable r
  | c :: s => full_match (deriv c r) s
  end.

(** The strings of an expression. *)
Inductive lang : regex -> list ascii -> Prop :=
| lang_Empty : lang Empty []
| lang_Class p c : p c = true -> lang (Class p) [c]
| lang_Cat r1 r2 s1 s2 :
    lang r1 s1 -> lang r2 s2 -> lang (Cat r1 r2) (s1 ++ s2)
| lang_Alt_l r1 r2 s : lang r1 s -> lang (Alt r1 r2) s
| lang_Alt_r r1 r2 s : lang r2 s -> lang (Alt r1 r2) s
| lang_Star_nil r : lang (Star r) []
| lang_Star_cons r s1 s2 :
    lang r s1 -> lang (Star r) s2 -> lang (Star r) (s1 ++ s2).

(** A string literal as bytes. *)
Definition str (s : string) : list ascii := list_ascii_of_string s.

(** [w], [r?], [r+] and [.] with newlines. *)
Definition lit (w : list ascii) : regex :=
  foldr (fun c r => Cat (Class (Ascii.eqb c)) r) Empty w.
Definition opt (r : regex) : regex := Alt r Empty.
Definition plus (r : regex) : regex := Cat r (Star r).
Definition any : regex := Class (fun _ => true).

(** [regexp.MatchString] for a pattern [r $]: the text contains a match,
    and [$] puts its end at the end of the text, so some suffix of the
    text is a string of [r]. *)
Definition MatchString (r : regex) (s : list ascii) : bool :=
  full_match (Cat (Star any) r) s.

(** [strings.HasSuffix] *)
Definition HasSuffix (s suffix : list ascii) : bool :=
  (length suffix <=? length s)%nat &&
  bool_decide (drop (length s - length suffix) s = suffix).

(** ** Package [httpclient] *)

Module httpclient.

(** [[^:/?#]] *)
Definition host_char (c : ascii) : bool :=
  negb (Ascii.eqb c ":" || Ascii.eqb c "/" || Ascii.eqb c "?" || Ascii.eqb c "#").

(** [\d] *)
Definition digit (c : ascii) : bool :=
  (48 <=? nat_of_ascii c)%nat && (nat_of_ascii c <=? 57)%nat.

(** [https?://([^:/?#]+)(:\d+)?/?], the pattern of [AddSource] up to its
    [$]. *)
Definition baseURL_pattern : regex :=
  Cat (lit (str "http"))
    (Cat (opt (lit (str "s")))
       (Cat (lit (str "://"))
          (Cat (plus (Class host_char))
             (Cat (opt (Cat (lit (str ":")) (plus (Class digit))))
                  (opt (lit (str "/"))))))).

(** The strings the pattern accepts, spelled out: anything, then a
    scheme, [://], a host, and optionally a port and a slash. *)
Definition is_base_url (s : list ascii) : Prop :=
  exists pre scheme host port slash,
    s = pre ++ scheme ++ str "://" ++ host ++ port ++ slash /\
    (scheme = str "http" \/ scheme = str "https") /\
    host <> [] /\ Forall (fun c => host_char c = true) host /\
    (port = [] \/
     exists d, port = str ":" ++ d /\ d <> [] /\
               Forall (fun c => digit c = true) d) /\
    (slash = [] \/ slash = str "/").

(** The fields of the [Source] literal in [AddSource]; [lastErrorMtx] is
    a mutex at its zero value and carries no data. *)
Record Source : Type := {
  id : Z;
  baseURL : list ascii;
  headers : gmap (list ascii) (list ascii);
  isBackup : bool;
  lastError : option error
}.

(** [SourceOptions]; [None] is a nil [Headers] map. *)
Record SourceOptions : Type := {
  embeddedServerOptions : ServerOptions;
  Headers : option (gmap (list ascii) (list ascii))
}.

(** [SourceState] *)
Record SourceState : Type := {
  BaseURL : list ascii;
  StateIsBackup : bool;
  LastError : option error
}.

(** The loop that copies [opts.Headers] into the new map. *)
Definition copy_headers (h : option (gmap (list ascii) (list ascii)))
  : gmap (list ascii) (list ascii) :=
  match h with
  | None => ∅
  | Some h => map_fold (fun k v m => <[k := v]> m) ∅ h
  end.

Section Client.

(** [balancer.LoadBalancer], [http.Transport] and the values of
    [EventHandler]. *)
Variables B Transport Handler : Type.

(** The balancer's [Add], declared outside the file: the balancer it
    leaves and the error it returns. *)
Variable lbAdd : ServerOptions -> Source -> B -> B * option error.

(** The methods [BaseURL], [IsBackup] and [Err] of [Source], declared
    outside the file. *)
Variable Source_BaseURL : Source -> list ascii.
Variable Source_IsBackup : Source -> bool.
Variable Source_Err : Source -> option error.

Record HttpClient : Type := {
  lb : B;
  transport : Transport;
  eventHandler : option Handler;
  sources : list Source
}.

Definition set_lb (b : B) (c : HttpClient) : HttpClient :=
  {| lb := b; transport := transport c; eventHandler := eventHandler c;
     sources := sources c |}.

Definition set_sources (l : list Source) (c : HttpClient) : HttpClient :=
  {| lb := lb c; transport := transport c; eventHandler := eventHandler c;
     sources := l |}.

(** [func (c *HttpClient) AddSource(baseURL string, opts SourceOptions) error] *)
Definition AddSource (c : HttpClient) (url : list ascii) (o : SourceOptions)
  : HttpClient * option error :=
  if negb (MatchString baseURL_pattern url) then
    (c, Some (errorString "missing base url"))
  else
    let url :=
      if HasSuffix url (str "/") then take (length url - 1) url else url in
    let src :=
      {| id := GoInt.add (Z.of_nat (length (sources c))) 1;
         baseURL := url;
         headers := copy_headers (Headers o);
         isBackup := IsBackup (embeddedServerOptions o);
         lastError := None |} in
    let c := set_sources (sources c ++ [src]) c in
    let '(b, err) := lbAdd (embeddedServerOptions o) src (lb c) in
    let c := set_lb b c in
    match err with
    | Some e =>
        (set_sources (take (length (sources c) - 1) (sources c)) c, Some e)
    | None => (c, None)
    end.

(** [func (c *HttpClient) SourcesCount() int] *)
Definition SourcesCount (c : HttpClient) : Z := Z.of_nat (length (sources c)).

(** [func (c *HttpClient) SourceState(index int) *SourceState]; [None] is
    the nil pointer. *)
Definition SourceState_of (c : HttpClient) (index : Z) : option SourceState :=
  if (index <? 0) || (Z.of_nat (length (sources c)) <=? index) then None
  else
    src ← sources c !! Z.to_nat index;
    Some {| BaseURL := Source_BaseURL src;
            StateIsBackup := Source_IsBackup src;
            LastError := Source_Err src |}.

(** [func (c *HttpClient) SetEventHandler(handler EventHandler)] *)
Definition SetEventHandler (c : HttpClient) (handler : option Handler)
  : HttpClient :=
  {| lb := lb c; transport := transport c; eventHandler := handler;
     sources := sources c |}.

(** [AddSource] calls in a row, with the error of each. *)
Fixpoint AddSources (c : HttpClient) (reqs : list (list ascii * SourceOptions))
  : HttpClient * list (option error) :=
  match reqs with
  | [] => (c, [])
  | (url, o) :: reqs =>
      let '(c1, e) := AddSource c url o in
      let '(c2, es) := AddSources c1 reqs in
      (c2, e :: es)
  end.

(** How many of the calls returned no error. *)
Definition added (es : list (option error)) : nat :=
  length (List.filter (fun e => match e with None => true | Some _ => false end)
                      es).

(** The identifiers of the sources count up from 1. *)
Definition ids_in_order (l : list Source) : Prop :=
  forall i src, l !! i = Some src -> id src = Z.of_nat i + 1.

End Client.

End httpclient.

(** ** Sample balancers *)

Module Sample.

Definition primary (maxFails : Z) (timeout : Duration) : ServerOptions :=
  {| Weight := 1; MaxFails := maxFails; FailTimeout := timeout;
     IsBackup := false |}.

Definition backup (maxFails : Z) (timeout : Duration) : ServerOptions :=
  {| Weight := 1; MaxFails := maxFails; FailTimeout := timeout;
     IsBackup := true |}.

Definition srv0 : ServerRef := {| refBackup := false; refPos := 0 |}.
Definition srv1 : ServerRef := {| refBackup := false; refPos := 1 |}.
Definition bak0 : ServerRef := {| refBackup := true; refPos := 0 |}.

Definition balancer (prim bak : list (Server string)) (count : Z)
  : LoadBalancer string :=
  {| primaryGroup := {| srvList := prim; currServerIdx := 0;
                        currServerWeight := 0 |};
     backupGroup := {| srvList := bak; currServerIdx := 0;
                       currServerWeight := 0 |};
     primaryOnlineCount := count |}.

Definition fresh_server (maxFails : Z) (timeout : Duration) : Server string :=
  newServer (primary maxFails timeout) 0 "http://a"%string.

(** A primary server that failed once at instant 0: its window ends at
    [timeout]. *)
Definition failed_server (maxFails : Z) (timeout : Duration) : Server string :=
  set_failTimestamp timeout (set_failCounter 1 (fresh_server maxFails timeout)).

(** A primary server put down at instant 0. *)
Definition down_server (maxFails : Z) (timeout : Duration) : Server string :=
  set_isDown true
    (set_failTimestamp timeout
       (set_failCounter maxFails (fresh_server maxFails timeout))).

Definition second_server (maxFails : Z) (timeout : Duration) : Server string :=
  newServer (primary maxFails timeout) 1 "http://b"%string.

Definition backup_server (maxFails : Z) (timeout : Duration) : Server string :=
  newServer (backup maxFails timeout) 0 "http://c"%string.

(** One fresh primary server. *)
Definition fresh (maxFails : Z) (timeout : Duration) : LoadBalancer string :=
  balancer [fresh_server maxFails timeout] [] 1.

(** A primary server that failed once, next to a primary without
    health tracking and a backup server. *)
Definition failed_once (maxFails : Z) (timeout : Duration)
  : LoadBalancer string :=
  balancer [failed_server maxFails timeout; second_server 0 timeout]
           [backup_server 2 timeout] 2.

(** A primary server that is down, next to a primary that is up and a
    backup server. *)
Definition one_down (maxFails : Z) (timeout : Duration)
  : LoadBalancer string :=
  balancer [down_server maxFails timeout; second_server 2 timeout]
           [backup_server 2 timeout] 1.

Definition timeout_error : error := errorString "timeout".

End Sample.

(** ** Sample clients *)

Module SampleClient.

(** A balancer that records the identifiers handed to [Add] and refuses
    a negative weight. *)
Definition add (o : ServerOptions) (src : httpclient.Source) (b : list Z)
  : list Z * option error :=
  if Weight o <? 0 then (b, Some (errorString "invalid parameter"))
  else (b ++ [httpclient.id src], None).

Definition empty : httpclient.HttpClient (list Z) unit unit :=
  {| httpclient.lb := []; httpclient.transport := tt;
     httpclient.eventHandler := None; httpclient.sources := [] |}.

Definition plain (o : ServerOptions) : httpclient.SourceOptions :=
  {| httpclient.embeddedServerOptions := o; httpclient.Headers := None |}.

Definition refused : ServerOptions :=
  {| Weight := -1; MaxFails := 0; FailTimeout := 0; IsBackup := false |}.

(** The source [AddSource] makes of [http://a/] on [empty]. *)
Definition first_source : httpclient.Source :=
  {| httpclient.id := 1; httpclient.baseURL := str "http://a";
     httpclient.headers := ∅; httpclient.isBackup := false;
     httpclient.lastError := None |}.

Definition one : httpclient.HttpClient (list Z) unit unit :=
  {| httpclient.lb := [1]; httpclient.transport := tt;
     httpclient.eventHandler := None; httpclient.sources := [first_source] |}.

(** Three requests, the second with a text that is no base URL. *)
Definition requests : list (list ascii * httpclient.SourceOptions) :=
  [(str "http://a/", plain (Sample.primary 1 10));
   (str "a", plain (Sample.primary 1 10));
   (str "https://b:80", plain (Sample.backup 1 10))].

End SampleClient.

(** Reads the fields of a server written with the field assignments. *)
Ltac fields :=
  cbn [opts index isDown failCounter failTimestamp userData
       set_isDown set_failCounter set_failTimestamp].

Unset Implicit Arguments.

(** ** Arithmetic of Go's [int] *)

Lemma wrap_is_int (z : Z) : GoInt.is_int z -> GoInt.wrap z = z.
Proof.
  unfold GoInt.is_int, GoInt.int_min, GoInt.int_max, GoInt.wrap.
  change (2 ^ 63) with 9223372036854775808.
  change (2 ^ 64) with 18446744073709551616.
  intros Hz. rewrite Z.mod_small; lia.
Qed.

Lemma add_no_overflow (a b : Z) :
  GoInt.is_int (a + b) -> GoInt.add a b = a + b.
Proof. apply wrap_is_int. Qed.

Lemma sub_no_overflow (a b : Z) :
  GoInt.is_int (a - b) -> GoInt.sub a b = a - b.
Proof. apply wrap_is_int. Qed.

Lemma int_bounds : GoInt.int_min = -9223372036854775808 /\
                   GoInt.int_max = 9223372036854775807.
Proof. split; reflexivity. Qed.

(** A counter below an [int] threshold is incremented without wrapping. *)
Lemma increment_below (c m : Z) :
  0 <= c -> c < m -> GoInt.is_int m -> GoInt.add c 1 = c + 1.
Proof.
  intros H0 Hlt Hm. apply add_no_overflow.
  destruct int_bounds as [Hmin Hmax].
  unfold GoInt.is_int in *. rewrite Hmin, Hmax in *. lia.
Qed.

Section Properties.

Variable UD : Type.

Implicit Types (lb : LoadBalancer UD) (s : Server UD) (srv : ServerRef).
Implicit Types (now : Time) (tr : list Action) (cs : list Call).

(** ** The store of servers *)

Lemma getServer_store_eq lb srv s s' count :
  getServer lb srv = Some s ->
  getServer (store lb srv s' count) srv = Some s'.
Proof.
  unfold getServer, store, group. intros H.
  destruct (refBackup srv); simpl;
    apply list_lookup_insert_eq; eapply lookup_lt_Some; exact H.
Qed.

Lemma getServer_store_ne lb srv srv' s' count :
  srv' <> srv ->
  getServer (store lb srv s' count) srv' = getServer lb srv'.
Proof.
  unfold getServer, store, group. intros Hne.
  destruct srv as [b i], srv' as [b' i']; simpl.
  destruct b, b'; simpl; try reflexivity;
    apply list_lookup_insert_ne; congruence.
Qed.

Lemma store_same lb srv s :
  getServer lb srv = Some s -> store lb srv s (primaryOnlineCount lb) = lb.
Proof.
  unfold getServer, store, group. intros H.
  destruct lb as [[pl pi pw] [bl bi bw] c]; simpl in *.
  destruct (refBackup srv); simpl in *; unfold set_srvList; simpl;
    rewrite list_insert_id by exact H; reflexivity.
Qed.

Lemma primaryOnlineCount_store lb srv s count :
  primaryOnlineCount (store lb srv s count) = count.
Proof. unfold store. destruct (refBackup srv); reflexivity. Qed.

(** ** The methods on a server of the balancer *)

Lemma untracked_false s :
  IsBackup (opts s) = false -> MaxFails (opts s) <> 0 -> untracked s = false.
Proof.
  unfold untracked. intros -> Hm.
  destruct (Z.eqb_spec (MaxFails (opts s)) 0); [contradiction | reflexivity].
Qed.

Lemma untracked_true s :
  MaxFails (opts s) = 0 \/ IsBackup (opts s) = true -> untracked s = true.
Proof.
  unfold untracked. intros [-> | ->]; [reflexivity | apply orb_true_r].
Qed.

Lemma SetOnline_untracked lb srv s :
  getServer lb srv = Some s -> untracked s = true ->
  SetOnline srv lb = Some (lb, []).
Proof. unfold SetOnline. intros -> H. simpl. rewrite H. reflexivity. Qed.

Lemma SetOffline_untracked lb srv now s :
  getServer lb srv = Some s -> untracked s = true ->
  SetOffline srv now lb = Some (lb, []).
Proof. unfold SetOffline. intros -> H. simpl. rewrite H. reflexivity. Qed.

Lemma SetOnline_tracked lb srv s :
  getServer lb srv = Some s -> untracked s = false ->
  SetOnline srv lb =
    Some (store lb srv (SetOnline_locked s (primaryOnlineCount lb)).1.1
                       (SetOnline_locked s (primaryOnlineCount lb)).1.2,
          [Lock; Unlock] ++
          (if (SetOnline_locked s (primaryOnlineCount lb)).2
           then [RaiseEvent [ArgEvent ServerUpEvent; ArgServer srv]]
           else [])).
Proof.
  unfold SetOnline. intros -> H. simpl. rewrite H.
  destruct (SetOnline_locked s (primaryOnlineCount lb)) as [[s' c] n].
  reflexivity.
Qed.

Lemma SetOffline_tracked lb srv now s :
  getServer lb srv = Some s -> untracked s = false ->
  SetOffline srv now lb =
    Some (store lb srv (SetOffline_locked now s (primaryOnlineCount lb)).1.1
                       (SetOffline_locked now s (primaryOnlineCount lb)).1.2,
          [Lock; Unlock] ++
          (if (SetOffline_locked now s (primaryOnlineCount lb)).2
           then [RaiseEvent [ArgEvent ServerDownEvent; ArgServer srv]]
           else [])).
Proof.
  unfold SetOffline. intros -> H. simpl. rewrite H.
  destruct (SetOffline_locked now s (primaryOnlineCount lb)) as [[s' c] n].
  reflexivity.
Qed.

(** Replacing a server by one of the same configuration keeps the
    configuration of the slice. *)
Lemma map_config_insert (l : list (Server UD)) (i : nat) s s' :
  l !! i = Some s -> config s' = config s ->
  @config UD <$> <[i := s']> l = @config UD <$> l.
Proof.
  intros Hl Hc. rewrite list_fmap_insert, Hc.
  apply list_insert_id. rewrite list_lookup_fmap, Hl. reflexivity.
Qed.

Lemma same_config_refl lb : same_config lb lb.
Proof. repeat split. Qed.

Lemma same_config_trans lb1 lb2 lb3 :
  same_config lb1 lb2 -> same_config lb2 lb3 -> same_config lb1 lb3.
Proof.
  unfold same_config, same_group_config.
  intros [(? & ? & ?) (? & ? & ?)] [(? & ? & ?) (? & ? & ?)].
  repeat split; congruence.
Qed.

Lemma same_config_store lb srv s s' count :
  getServer lb srv = Some s -> config s' = config s ->
  same_config lb (store lb srv s' count).
Proof.
  unfold getServer, store, group, same_config, same_group_config.
  intros Hg Hc. destruct (refBackup srv); simpl;
    rewrite (map_config_insert _ _ _ _ Hg Hc); repeat split.
Qed.

Lemma same_but_store lb srv s s' count :
  getServer lb srv = Some s -> config s' = config s ->
  same_but srv lb (store lb srv s' count).
Proof.
  intros Hg Hc. split.
  - intros srv' Hne. apply getServer_store_ne. exact Hne.
  - eapply same_config_store; eassumption.
Qed.

Lemma same_but_refl lb srv : same_but srv lb lb.
Proof. split; [reflexivity | apply same_config_refl]. Qed.

(** ** The critical sections *)

Lemma SetOnline_locked_down s count :
  isDown s = true ->
  SetOnline_locked s count =
    (set_isDown false (set_failCounter 0 s), GoInt.add count 1, true).
Proof. unfold SetOnline_locked. simpl. intros ->. reflexivity. Qed.

Lemma SetOnline_locked_up s count :
  isDown s = false ->
  SetOnline_locked s count = (set_failCounter 0 s, count, false).
Proof. unfold SetOnline_locked. simpl. intros ->. reflexivity. Qed.

Lemma SetOnline_locked_config s count :
  config (SetOnline_locked s count).1.1 = config s.
Proof. unfold SetOnline_locked. simpl. destruct (isDown s); reflexivity. Qed.

Lemma count_failure_first now s :
  GoInt.add (failCounter s) 1 = 1 ->
  count_failure now s =
    set_failTimestamp (time_Add now (FailTimeout (opts s))) (set_failCounter 1 s).
Proof. unfold count_failure. simpl. intros ->. reflexivity. Qed.

Lemma count_failure_expired now s :
  GoInt.add (failCounter s) 1 <> 1 -> failTimestamp s < now ->
  count_failure now s = set_failCounter 1 s.
Proof.
  unfold count_failure, time_After. simpl. intros Hc Ht.
  destruct (Z.eqb_spec (GoInt.add (failCounter s) 1) 1); [contradiction |].
  destruct (Z.ltb_spec (failTimestamp s) now); [reflexivity | lia].
Qed.

Lemma count_failure_within now s :
  GoInt.add (failCounter s) 1 <> 1 -> now <= failTimestamp s ->
  count_failure now s = set_failCounter (GoInt.add (failCounter s) 1) s.
Proof.
  unfold count_failure, time_After. simpl. intros Hc Ht.
  destruct (Z.eqb_spec (GoInt.add (failCounter s) 1) 1); [contradiction |].
  destruct (Z.ltb_spec (failTimestamp s) now); [lia | reflexivity].
Qed.

Lemma count_failure_frame now s :
  config (count_failure now s) = config s /\
  isDown (count_failure now s) = isDown s.
Proof.
  unfold count_failure. simpl.
  destruct (GoInt.add (failCounter s) 1 =? 1); [split; reflexivity |].
  destruct (time_After now (failTimestamp s)); split; reflexivity.
Qed.

Lemma SetOffline_locked_idle now s count :
  isDown s = true \/ MaxFails (opts s) <= failCounter s ->
  SetOffline_locked now s count = (s, count, false).
Proof.
  unfold SetOffline_locked. intros [-> | Hc]; [reflexivity |].
  destruct (Z.ltb_spec (failCounter s) (MaxFails (opts s))); [lia |].
  rewrite andb_false_r. reflexivity.
Qed.

Lemma SetOffline_locked_active now s count :
  isDown s = false -> failCounter s < MaxFails (opts s) ->
  SetOffline_locked now s count =
    if failCounter (count_failure now s) =? MaxFails (opts s) then
      (set_failTimestamp (time_Add now (FailTimeout (opts s)))
         (set_isDown true (count_failure now s)),
       GoInt.sub count 1, true)
    else (count_failure now s, count, false).
Proof.
  unfold SetOffline_locked. intros -> Hc.
  destruct (Z.ltb_spec (failCounter s) (MaxFails (opts s))); [| lia].
  simpl. destruct (count_failure_frame now s) as [Hcfg _].
  assert (Ho : opts (count_failure now s) = opts s)
    by (unfold config in Hcfg; congruence).
  rewrite Ho. reflexivity.
Qed.

Lemma SetOffline_locked_config now s count :
  config (SetOffline_locked now s count).1.1 = config s.
Proof.
  unfold SetOffline_locked.
  destruct (count_failure_frame now s) as [Hcfg _].
  destruct (negb (isDown s) && (failCounter s <? MaxFails (opts s)));
    [| reflexivity].
  simpl.
  destruct (failCounter (count_failure now s)
            =? MaxFails (opts (count_failure now s))); simpl;
    [| exact Hcfg].
  unfold config in *. simpl. exact Hcfg.
Qed.

(** ** [SetOnline] *)

(** C4. For a primary server with [MaxFails >= 1], [SetOnline] sets
    [failCounter] to 0 whatever the state. If the server was down it is
    up afterwards, [primaryOnlineCount] of its balancer is incremented
    (Go's [+= 1]; by exactly one when that is an [int]) and the trace is
    lock, unlock, then one [ServerUpEvent] for this server. If it was up
    nothing but the counter is written, the count is unchanged and no
    event is raised. In both cases the rest of the balancer is as
    before. *)
Theorem SetOnline_resets_and_restores lb srv s :
  getServer lb srv = Some s ->
  IsBackup (opts s) = false ->
  1 <= MaxFails (opts s) ->
  exists lb' tr s',
    SetOnline srv lb = Some (lb', tr) /\
    getServer lb' srv = Some s' /\
    failCounter s' = 0 /\
    same_but srv lb lb' /\
    (isDown s = true ->
       s' = set_isDown false (set_failCounter 0 s) /\
       isDown s' = false /\
       primaryOnlineCount lb' = GoInt.add (primaryOnlineCount lb) 1 /\
       (GoInt.is_int (primaryOnlineCount lb + 1) ->
        primaryOnlineCount lb' = primaryOnlineCount lb + 1) /\
       tr = [Lock; Unlock;
             RaiseEvent [ArgEvent ServerUpEvent; ArgServer srv]]) /\
    (isDown s = false ->
       s' = set_failCounter 0 s /\
       isDown s' = false /\
       primaryOnlineCount lb' = primaryOnlineCount lb /\
       tr = [Lock; Unlock] /\
       events tr = []).
Proof.
  intros Hg Hb Hm.
  assert (Hu : untracked s = false) by (apply untracked_false; [exact Hb | lia]).
  rewrite (SetOnline_tracked _ _ _ Hg Hu).
  pose proof (SetOnline_locked_config s (primaryOnlineCount lb)) as Hcfg.
  destruct (isDown s) eqn:Hd.
  - rewrite (SetOnline_locked_down _ _ Hd) in *. simpl in *.
    eexists _, _, _. split; [reflexivity |].
    split; [eapply getServer_store_eq; exact Hg |].
    split; [reflexivity |].
    split; [eapply same_but_store; [exact Hg | exact Hcfg] |].
    split; [| discriminate].
    intros _. rewrite primaryOnlineCount_store.
    repeat split. apply add_no_overflow.
  - rewrite (SetOnline_locked_up _ _ Hd) in *. simpl in *.
    eexists _, _, _. split; [reflexivity |].
    split; [eapply getServer_store_eq; exact Hg |].
    split; [reflexivity |].
    split; [eapply same_but_store; [exact Hg | exact Hcfg] |].
    split; [discriminate |].
    intros _. rewrite primaryOnlineCount_store.
    repeat split. exact Hd.
Qed.

(** ** [SetOffline] *)


(** ** Calls as effects on the target server *)

(** A call on a server of the balancer returns, and writes back what
    [call_effect] computes from the server and the count. *)
Lemma call_store lb c s :
  getServer lb (call_target c) = Some s ->
  exists tr,
    call c lb =
      Some (store lb (call_target c)
              (call_effect c s (primaryOnlineCount lb)).1.1
              (call_effect c s (primaryOnlineCount lb)).1.2, tr) /\
    (events tr = [] \/ (call_effect c s (primaryOnlineCount lb)).2 = true).
Proof.
  intros Hg. unfold call_effect.
  destruct (untracked s) eqn:Hu.
  - exists []. simpl. rewrite (store_same _ _ _ Hg).
    split; [| by left].
    destruct c; simpl in *;
      [eapply SetOnline_untracked | eapply SetOffline_untracked]; eassumption.
  - destruct c as [srv | srv now]; simpl in *.
    + rewrite (SetOnline_tracked _ _ _ Hg Hu). eexists. split; [reflexivity |].
      destruct (SetOnline_locked s (primaryOnlineCount lb)).2; [by right | by left].
    + rewrite (SetOffline_tracked _ _ now _ Hg Hu).
      eexists. split; [reflexivity |].
      destruct (SetOffline_locked now s (primaryOnlineCount lb)).2;
        [by right | by left].
Qed.

Lemma call_effect_config c s count :
  config (call_effect c s count).1.1 = config s.
Proof.
  unfold call_effect. destruct (untracked s); [reflexivity |].
  destruct c; [apply SetOnline_locked_config | apply SetOffline_locked_config].
Qed.

(** The bookkeeping of a failure, by the state of the window. *)
Lemma count_failure_counter now s :
  0 <= failCounter s -> failCounter s < MaxFails (opts s) ->
  threshold_typed s ->
  (failCounter s = 0 /\
   count_failure now s =
     set_failTimestamp (time_Add now (FailTimeout (opts s))) (set_failCounter 1 s)) \/
  (1 <= failCounter s /\ failTimestamp s < now /\
   count_failure now s = set_failCounter 1 s) \/
  (1 <= failCounter s /\ now <= failTimestamp s /\
   count_failure now s = set_failCounter (failCounter s + 1) s).
Proof.
  intros H0 Hlt Ht.
  pose proof (increment_below _ _ H0 Hlt Ht) as Hinc.
  destruct (Z.eq_dec (failCounter s) 0) as [Hz | Hnz].
  - left. split; [exact Hz |]. apply count_failure_first. lia.
  - right. destruct (Z.lt_ge_cases (failTimestamp s) now) as [Hexp | Hin].
    + left. repeat split; [lia | exact Hexp |].
      apply count_failure_expired; lia.
    + right. repeat split; [lia | lia |].
      rewrite <- Hinc. apply count_failure_within; lia.
Qed.

(** ** The health invariant *)

Lemma SetOnline_locked_health s count :
  health_inv s -> health_inv (SetOnline_locked s count).1.1.
Proof.
  unfold health_inv, SetOnline_locked. simpl. intros [Hr _].
  destruct (isDown s) eqn:Hd; simpl; (split; [lia | congruence]).
Qed.

Lemma SetOffline_locked_health now s count :
  health_inv s -> threshold_typed s ->
  health_inv (SetOffline_locked now s count).1.1.
Proof.
  intros Hinv Ht. pose proof Hinv as [Hr Hdown].
  destruct (isDown s) eqn:Hd.
  { rewrite SetOffline_locked_idle by (by left). exact Hinv. }
  destruct (Z.lt_ge_cases (failCounter s) (MaxFails (opts s))) as [Hlt | Hge].
  2:{ rewrite SetOffline_locked_idle by (by right). exact Hinv. }
  rewrite (SetOffline_locked_active now _ _ Hd Hlt).
  destruct (Z.eqb_spec (failCounter (count_failure now s)) (MaxFails (opts s)))
    as [Heq | Hne]; simpl.
  - destruct (count_failure_frame now s) as [Hcfg _].
    unfold health_inv, config in *. simpl.
    replace (opts (count_failure now s)) with (opts s) by congruence.
    split; [lia | intros _; exact Heq].
  - destruct (count_failure_frame now s) as [Hcfg Hsame].
    unfold health_inv, config in *.
    replace (opts (count_failure now s)) with (opts s) by congruence.
    rewrite Hsame, Hd. split; [| discriminate].
    destruct (count_failure_counter now s) as [[_ ->] | [(_ & _ & ->) | (_ & _ & ->)]];
      simpl; try lia; (exact Ht || idtac).
Qed.

Lemma call_effect_health c s count :
  health_inv s -> threshold_typed s -> health_inv (call_effect c s count).1.1.
Proof.
  intros Hinv Ht. unfold call_effect. destruct (untracked s); [exact Hinv |].
  destruct c; [by apply SetOnline_locked_health
              | by apply SetOffline_locked_health].
Qed.

(** C5. The predicate "[failCounter] is in [[0, MaxFails]], and a server
    that is down has [failCounter = MaxFails]" holds of a new server
    (whose threshold is not negative), and when it holds of every server
    of a balancer it holds of every server again after any [SetOnline]
    or [SetOffline] call on one of them, the call returning. *)
Theorem health_inv_initial_and_preserved :
  (forall (o : ServerOptions) (idx : Z) (ud : UD),
     0 <= MaxFails o -> health_inv (newServer o idx ud)) /\
  (forall lb c s,
     getServer lb (call_target c) = Some s ->
     threshold_typed s ->
     (forall srv' s', getServer lb srv' = Some s' -> health_inv s') ->
     exists lb' tr,
       call c lb = Some (lb', tr) /\
       (forall srv' s', getServer lb' srv' = Some s' -> health_inv s')).
Proof.
  split.
  - intros o idx ud Hm. unfold health_inv. simpl.
    split; [lia | discriminate].
  - intros lb c s Hg Ht Hall.
    destruct (call_store lb c s Hg) as (tr & Hcall & _).
    eexists _, tr. split; [exact Hcall |].
    intros srv' s' Hg'.
    destruct (decide (srv' = call_target c)) as [-> | Hne].
    + rewrite (getServer_store_eq _ _ _ _ _ Hg) in Hg'.
      injection Hg' as <-. apply call_effect_health; [| exact Ht].
      eapply Hall. exact Hg.
    + rewrite getServer_store_ne in Hg' by exact Hne.
      eapply Hall. exact Hg'.
Qed.

(** ** The count of online primary servers *)

Lemma onlineCount_bounds (l : list (Server UD)) :
  0 <= onlineCount l <= Z.of_nat (length l).
Proof.
  induction l as [| x l IH]; simpl onlineCount; simpl length; [lia |].
  unfold online. destruct (isDown x); lia.
Qed.

Lemma onlineCount_insert (l : list (Server UD)) (i : nat) s s' :
  l !! i = Some s ->
  onlineCount (<[i := s']> l) = onlineCount l + online s' - online s.
Proof.
  revert i. induction l as [| x l IH]; intros [| i] Hl; simpl in *;
    try discriminate.
  - injection Hl as ->. unfold online. lia.
  - rewrite (IH i Hl). lia.
Qed.

(** The effect of a call on the count matches the change of the down
    flag, as long as the decrement or increment stays an [int]. *)
Lemma call_effect_count c s count :
  GoInt.is_int (count + transition_delta (isDown s)
                          (isDown (call_effect c s count).1.1)) ->
  (call_effect c s count).1.2 =
    count + transition_delta (isDown s) (isDown (call_effect c s count).1.1).
Proof.
  unfold call_effect. destruct (untracked s).
  { simpl. intros _. destruct (isDown s); simpl; lia. }
  destruct c as [srv | srv now].
  - destruct (isDown s) eqn:Hd.
    + rewrite (SetOnline_locked_down _ _ Hd). simpl. apply add_no_overflow.
    + rewrite (SetOnline_locked_up _ _ Hd). simpl. rewrite Hd. simpl. lia.
  - destruct (isDown s) eqn:Hd.
    { rewrite SetOffline_locked_idle by (by left). simpl. rewrite Hd. simpl. lia. }
    destruct (Z.lt_ge_cases (failCounter s) (MaxFails (opts s))) as [Hlt | Hge].
    2:{ rewrite SetOffline_locked_idle by (by right). simpl. rewrite Hd. simpl. lia. }
    rewrite (SetOffline_locked_active now _ _ Hd Hlt).
    destruct (failCounter (count_failure now s) =? MaxFails (opts s)); simpl.
    + intros Hi. rewrite sub_no_overflow; [lia |].
      replace (count - 1) with (count + -1) by lia. exact Hi.
    + destruct (count_failure_frame now s) as [_ ->]. rewrite Hd. simpl. lia.
Qed.

(** A call changes the down flag only of a tracked server. *)
Lemma call_effect_untracked c s count :
  untracked s = true -> call_effect c s count = (s, count, false).
Proof. unfold call_effect. intros ->. reflexivity. Qed.

Lemma transition_delta_online (s s' : Server UD) :
  transition_delta (isDown s) (isDown s') = online s' - online s.
Proof. unfold online. destruct (isDown s), (isDown s'); reflexivity. Qed.

(** C6. When [primaryOnlineCount] equals the number of primary servers
    that are not down (the groups holding the servers of their tier),
    it does so again after any [SetOnline] or [SetOffline] call: the
    count moves by +1 on a transition from down to up, by -1 on a
    transition from up to down, and not at all otherwise. *)
Theorem count_inv_preserved lb c s :
  getServer lb (call_target c) = Some s ->
  groups_wf lb ->
  count_inv lb ->
  exists lb' tr s',
    call c lb = Some (lb', tr) /\
    getServer lb' (call_target c) = Some s' /\
    groups_wf lb' /\
    count_inv lb' /\
    primaryOnlineCount lb' =
      primaryOnlineCount lb + transition_delta (isDown s) (isDown s').
Proof.
  intros Hg (Hprim & Hbak & Hlen) Hcount.
  destruct (call_store lb c s Hg) as (tr & Hcall & _).
  pose proof (call_effect_config c s (primaryOnlineCount lb)) as Hcfg.
  set (srv := call_target c) in *.
  destruct (refBackup srv) eqn:Hrb.
  - (* a server of the backup group is not tracked *)
    assert (Hu : untracked s = true).
    { apply untracked_true. right.
      unfold getServer, group in Hg. rewrite Hrb in Hg.
      exact (Forall_lookup_1 _ _ _ _ Hbak Hg). }
    rewrite (call_effect_untracked c s _ Hu) in Hcall. simpl in Hcall.
    rewrite (store_same _ _ _ Hg) in Hcall.
    exists lb, tr, s. repeat split; try assumption.
    destruct (isDown s); simpl; lia.
  - set (e := call_effect c s (primaryOnlineCount lb)) in *.
    assert (Hl : srvList (primaryGroup lb) !! refPos srv = Some s).
    { unfold getServer, group in Hg. rewrite Hrb in Hg. exact Hg. }
    assert (Hoc : onlineCount (<[refPos srv := e.1.1]> (srvList (primaryGroup lb)))
                  = primaryOnlineCount lb
                    + transition_delta (isDown s) (isDown e.1.1)).
    { rewrite (onlineCount_insert _ _ _ _ Hl), transition_delta_online.
      rewrite Hcount. lia. }
    assert (Hint : GoInt.is_int (primaryOnlineCount lb
                    + transition_delta (isDown s) (isDown e.1.1))).
    { rewrite <- Hoc.
      pose proof (onlineCount_bounds
                    (<[refPos srv := e.1.1]> (srvList (primaryGroup lb)))) as Hb.
      rewrite length_insert in Hb.
      destruct int_bounds as [Hmin Hmax].
      unfold GoInt.is_int. rewrite Hmin. rewrite Hmax in *. lia. }
    pose proof (call_effect_count c s (primaryOnlineCount lb) Hint) as Hc2.
    fold e in Hc2.
    eexists _, tr, _. split; [exact Hcall |].
    split; [eapply getServer_store_eq; exact Hg |].
    unfold groups_wf, count_inv, store. rewrite Hrb. simpl.
    repeat split.
    + apply Forall_insert; [exact Hprim |].
      unfold config in Hcfg.
      replace (opts e.1.1) with (opts s) by congruence.
      exact (Forall_lookup_1 _ _ _ _ Hprim Hl).
    + exact Hbak.
    + rewrite length_insert. exact Hlen.
    + rewrite Hoc. exact Hc2.
    + exact Hc2.
Qed.

(** ** Servers without health tracking *)

Lemma call_untracked lb c s :
  getServer lb (call_target c) = Some s -> untracked s = true ->
  call c lb = Some (lb, []).
Proof.
  intros Hg Hu. destruct c; simpl in *;
    [eapply SetOnline_untracked | eapply SetOffline_untracked]; eassumption.
Qed.

(** C7. On a server with [MaxFails = 0] and on a backup server,
    [SetOnline] and [SetOffline] return before taking the lock: the
    balancer, with all its servers, is unchanged and no event is raised.
    This holds for any sequence of such calls, so however many
    [SetOffline] calls the server receives its down flag is the one it
    had. *)
Theorem untracked_server_is_never_touched lb srv s :
  getServer lb srv = Some s ->
  MaxFails (opts s) = 0 \/ IsBackup (opts s) = true ->
  SetOnline srv lb = Some (lb, []) /\
  (forall now, SetOffline srv now lb = Some (lb, [])) /\
  (forall cs, Forall (fun c => call_target c = srv) cs ->
     run cs lb = Some (lb, [])) /\
  (forall nows : list Time,
     exists lb' tr,
       run (CallSetOffline srv <$> nows) lb = Some (lb', tr) /\
       getServer lb' srv = Some s /\ events tr = []).
Proof.
  intros Hg Hor. pose proof (untracked_true s Hor) as Hu.
  assert (Hrun : forall cs, Forall (fun c => call_target c = srv) cs ->
                            run cs lb = Some (lb, [])).
  { induction cs as [| c cs IH]; intros Hall; [reflexivity |].
    inversion Hall as [| ? ? Hc Hcs]; subst. simpl.
    rewrite (call_untracked lb c s Hg Hu). simpl.
    rewrite (IH Hcs). reflexivity. }
  split; [eapply SetOnline_untracked; eassumption |].
  split; [intros now; eapply SetOffline_untracked; eassumption |].
  split; [exact Hrun |].
  intros nows. exists lb, []. split; [| by split].
  apply Hrun. apply Forall_fmap, Forall_forall. reflexivity.
Qed.

(** ** Configuration is immutable *)

Lemma same_config_getServer lb lb' srv s :
  same_config lb lb' -> getServer lb srv = Some s ->
  exists s', getServer lb' srv = Some s' /\ config s' = config s.
Proof.
  unfold same_config, same_group_config, getServer, group.
  intros [(Hp & _) (Hb & _)] Hg.
  destruct (refBackup srv).
  - assert (H : (@config UD <$> srvList (backupGroup lb')) !! refPos srv
                = Some (config s))
      by (rewrite <- Hb, list_lookup_fmap, Hg; reflexivity).
    rewrite list_lookup_fmap in H.
    destruct (srvList (backupGroup lb') !! refPos srv) as [s' |];
      [| discriminate].
    exists s'. split; [reflexivity | simpl in H; congruence].
  - assert (H : (@config UD <$> srvList (primaryGroup lb')) !! refPos srv
                = Some (config s))
      by (rewrite <- Hp, list_lookup_fmap, Hg; reflexivity).
    rewrite list_lookup_fmap in H.
    destruct (srvList (primaryGroup lb') !! refPos srv) as [s' |];
      [| discriminate].
    exists s'. split; [reflexivity | simpl in H; congruence].
Qed.

Lemma call_same_config lb c s :
  getServer lb (call_target c) = Some s ->
  exists lb' tr, call c lb = Some (lb', tr) /\ same_config lb lb'.
Proof.
  intros Hg. destruct (call_store lb c s Hg) as (tr & Hcall & _).
  eexists _, tr. split; [exact Hcall |].
  eapply same_config_store; [exact Hg | apply call_effect_config].
Qed.

Lemma run_same_config cs : forall lb,
  Forall (call_valid lb) cs ->
  exists lb' tr, run cs lb = Some (lb', tr) /\ same_config lb lb'.
Proof.
  induction cs as [| c cs IH]; intros lb Hall.
  - exists lb, []. split; [reflexivity | apply same_config_refl].
  - inversion Hall as [| ? ? [s Hs] Hcs]; subst.
    destruct (call_same_config lb c s Hs) as (lb1 & tr1 & Hcall & Hsame1).
    destruct (IH lb1) as (lb2 & tr2 & Hrun & Hsame2).
    { eapply Forall_impl; [exact Hcs |].
      intros c' [s0 Hs0].
      destruct (same_config_getServer lb lb1 _ s0 Hsame1 Hs0) as (s1 & Hs1 & _).
      exists s1. exact Hs1. }
    exists lb2, (tr1 ++ tr2). simpl. rewrite Hcall. simpl. rewrite Hrun. simpl.
    split; [reflexivity | eapply same_config_trans; eassumption].
Qed.

(** C9. Any sequence of [SetOnline] and [SetOffline] calls on servers of
    a balancer returns and leaves every server's options, index and user
    data, and the groups' cursors, as they were: only [failCounter],
    [isDown], [failTimestamp] and [primaryOnlineCount] can differ.
    [UserData], which reads [userData], therefore returns after the
    calls the value it returned before them, the one attached to the
    server when it was created. *)
Theorem configuration_is_immutable lb cs :
  Forall (call_valid lb) cs ->
  exists lb' tr,
    run cs lb = Some (lb', tr) /\
    same_config lb lb' /\
    (forall srv s, getServer lb srv = Some s ->
       exists s', getServer lb' srv = Some s' /\
                  opts s' = opts s /\ index s' = index s /\
                  userData s' = userData s /\
                  UserData s' = UserData s) /\
    (forall srv s (ud : UD),
       getServer lb srv = Some s -> UserData s = ud ->
       exists s', getServer lb' srv = Some s' /\ UserData s' = ud).
Proof.
  intros Hall.
  destruct (run_same_config cs lb Hall) as (lb' & tr & Hrun & Hsame).
  exists lb', tr. split; [exact Hrun |]. split; [exact Hsame |].
  assert (Hframe : forall srv s, getServer lb srv = Some s ->
            exists s', getServer lb' srv = Some s' /\
                       opts s' = opts s /\ index s' = index s /\
                       userData s' = userData s /\
                       UserData s' = UserData s).
  { intros srv s Hg.
    destruct (same_config_getServer lb lb' srv s Hsame Hg) as (s' & Hg' & Hc).
    exists s'. unfold config, UserData in *.
    repeat split; congruence. }
  split; [exact Hframe |].
  intros srv s ud Hg <-.
  destruct (Hframe srv s Hg) as (s' & Hg' & _ & _ & _ & Hu).
  exists s'. split; [exact Hg' | exact Hu].
Qed.

(** ** Failures in a row *)

Lemma SetOffline_locked_server now s count :
  (SetOffline_locked now s count).1.1 = after_failure now s.
Proof.
  unfold after_failure, SetOffline_locked.
  destruct (negb (isDown s) && (failCounter s <? MaxFails (opts s)));
    [| reflexivity].
  simpl.
  destruct (failCounter (count_failure now s)
            =? MaxFails (opts (count_failure now s))); reflexivity.
Qed.

Lemma after_failure_idle now s :
  isDown s = true \/ MaxFails (opts s) <= failCounter s ->
  after_failure now s = s.
Proof.
  intros H. unfold after_failure. rewrite SetOffline_locked_idle by exact H.
  reflexivity.
Qed.

Lemma after_failure_active now s :
  isDown s = false -> failCounter s < MaxFails (opts s) ->
  after_failure now s =
    if failCounter (count_failure now s) =? MaxFails (opts s) then
      set_failTimestamp (time_Add now (FailTimeout (opts s)))
        (set_isDown true (count_failure now s))
    else count_failure now s.
Proof.
  intros Hd Hlt. unfold after_failure.
  rewrite (SetOffline_locked_active now _ _ Hd Hlt).
  destruct (failCounter (count_failure now s) =? MaxFails (opts s));
    reflexivity.
Qed.

(** The first failure of a window opens it. *)
Lemma after_failure_first now s :
  isDown s = false -> failCounter s = 0 -> 2 <= MaxFails (opts s) ->
  after_failure now s =
    set_failTimestamp (time_Add now (FailTimeout (opts s))) (set_failCounter 1 s).
Proof.
  intros Hd Hc Hm. rewrite after_failure_active by (assumption || lia).
  rewrite count_failure_first by (rewrite Hc; reflexivity).
  cbn [failCounter set_failTimestamp set_failCounter set_isDown].
  destruct (Z.eqb_spec 1 (MaxFails (opts s))); [lia | reflexivity].
Qed.

(** A later failure within the window counts. *)
Lemma after_failure_within now s :
  isDown s = false -> 1 <= failCounter s ->
  failCounter s + 1 < MaxFails (opts s) -> threshold_typed s ->
  now <= failTimestamp s ->
  after_failure now s = set_failCounter (failCounter s + 1) s.
Proof.
  intros Hd Hc Hm Ht Hn. rewrite after_failure_active by (assumption || lia).
  destruct (count_failure_counter now s) as [[? _] | [(_ & ? & _) | (_ & _ & ->)]];
    try lia; try exact Ht.
  cbn [failCounter set_failTimestamp set_failCounter set_isDown].
  destruct (Z.eqb_spec (failCounter s + 1) (MaxFails (opts s)));
    [lia | reflexivity].
Qed.

(** The failure within the window that reaches the threshold puts the
    server down. *)
Lemma after_failure_reach now s :
  isDown s = false -> 1 <= failCounter s ->
  failCounter s + 1 = MaxFails (opts s) -> threshold_typed s ->
  now <= failTimestamp s ->
  after_failure now s =
    set_failTimestamp (time_Add now (FailTimeout (opts s)))
      (set_isDown true (set_failCounter (MaxFails (opts s)) s)).
Proof.
  intros Hd Hc Hm Ht Hn. rewrite after_failure_active by (assumption || lia).
  destruct (count_failure_counter now s) as [[? _] | [(_ & ? & _) | (_ & _ & ->)]];
    try lia; try exact Ht.
  cbn [failCounter set_failTimestamp set_failCounter set_isDown]. rewrite Hm. rewrite Z.eqb_refl. reflexivity.
Qed.

(** A later failure past the deadline of the window sets the counter to
    1 and writes nothing else: the deadline stays where it was. *)
Lemma after_failure_expired now s :
  isDown s = false -> 1 <= failCounter s ->
  failCounter s < MaxFails (opts s) -> threshold_typed s ->
  failTimestamp s < now ->
  after_failure now s = set_failCounter 1 s.
Proof.
  intros Hd Hc Hm Ht Hn. rewrite after_failure_active by assumption.
  destruct (count_failure_counter now s) as [[? _] | [(_ & _ & ->) | (_ & ? & _)]];
    try lia; try exact Ht.
  cbn [failCounter set_failTimestamp set_failCounter set_isDown].
  destruct (Z.eqb_spec 1 (MaxFails (opts s))); [lia | reflexivity].
Qed.

Lemma after_failure_config now s : config (after_failure now s) = config s.
Proof. unfold after_failure. apply SetOffline_locked_config. Qed.

Lemma untracked_config s s' : config s' = config s -> untracked s' = untracked s.
Proof. unfold config, untracked. intros H. by replace (opts s') with (opts s) by congruence. Qed.

Lemma after_failures_down nows : forall s,
  isDown s = true -> after_failures nows s = s.
Proof.
  induction nows as [| now nows IH]; intros s Hd; [reflexivity |].
  simpl. rewrite after_failure_idle by (by left). by apply IH.
Qed.

(** [notifyDown] is set exactly on a transition from up to down. *)
Lemma SetOffline_locked_notify now s count :
  (SetOffline_locked now s count).2 =
    negb (isDown s) && isDown (after_failure now s).
Proof.
  destruct (isDown s) eqn:Hd.
  { rewrite SetOffline_locked_idle by (by left). reflexivity. }
  destruct (Z.lt_ge_cases (failCounter s) (MaxFails (opts s))) as [Hlt | Hge].
  2:{ rewrite SetOffline_locked_idle, after_failure_idle by (by right).
      rewrite Hd. reflexivity. }
  rewrite (SetOffline_locked_active now _ _ Hd Hlt), after_failure_active
    by assumption.
  destruct (failCounter (count_failure now s) =? MaxFails (opts s)); simpl;
    [reflexivity |].
  destruct (count_failure_frame now s) as [_ ->]. by rewrite Hd.
Qed.

Lemma events_app tr1 tr2 : events (tr1 ++ tr2) = events tr1 ++ events tr2.
Proof.
  induction tr1 as [| a tr1 IH]; [reflexivity |].
  destruct a; simpl; rewrite ?IH; reflexivity.
Qed.

Lemma run_cons c cs lb lb1 tr1 :
  call c lb = Some (lb1, tr1) ->
  run (c :: cs) lb =
    match run cs lb1 with
    | Some (lb2, tr2) => Some (lb2, tr1 ++ tr2)
    | None => None
    end.
Proof.
  intros H. simpl. rewrite H. simpl.
  destruct (run cs lb1) as [[lb2 tr2] |]; reflexivity.
Qed.

(** One reported failure on a tracked server of the balancer. *)
Lemma SetOffline_after lb srv now s :
  getServer lb srv = Some s -> untracked s = false ->
  exists lb' tr,
    SetOffline srv now lb = Some (lb', tr) /\
    getServer lb' srv = Some (after_failure now s) /\
    (isDown (after_failure now s) = false -> events tr = []).
Proof.
  intros Hg Hu. rewrite (SetOffline_tracked _ _ now _ Hg Hu).
  eexists _, _. split; [reflexivity |].
  rewrite SetOffline_locked_server, SetOffline_locked_notify.
  split; [eapply getServer_store_eq; exact Hg |].
  intros ->. rewrite andb_false_r. reflexivity.
Qed.

(** Failures reported in a row on a tracked server of the balancer. *)
Lemma run_failures nows : forall lb srv s,
  getServer lb srv = Some s -> untracked s = false ->
  exists lb' tr,
    run (CallSetOffline srv <$> nows) lb = Some (lb', tr) /\
    getServer lb' srv = Some (after_failures nows s) /\
    (isDown (after_failures nows s) = false -> events tr = []).
Proof.
  induction nows as [| now nows IH]; intros lb srv s Hg Hu.
  - exists lb, []. repeat split. exact Hg.
  - destruct (SetOffline_after lb srv now s Hg Hu) as (lb1 & tr1 & Hc & Hg1 & He1).
    destruct (IH lb1 srv (after_failure now s) Hg1) as (lb2 & tr2 & Hr & Hg2 & He2).
    { rewrite (untracked_config _ _ (after_failure_config now s)). exact Hu. }
    exists lb2, (tr1 ++ tr2). rewrite fmap_cons.
    rewrite (run_cons (CallSetOffline srv now) _ lb lb1 tr1 Hc), Hr.
    split; [reflexivity |]. split; [exact Hg2 |].
    intros Hup. cbn [after_failures] in Hup. rewrite events_app, (He2 Hup).
    destruct (isDown (after_failure now s)) eqn:Hd1.
    + rewrite (after_failures_down nows _ Hd1) in Hup. congruence.
    + rewrite He1 by reflexivity. reflexivity.
Qed.

(** Failures that all come after the deadline of an open window. *)
Lemma after_failures_expired nows : forall s,
  isDown s = false -> 1 <= failCounter s -> 2 <= MaxFails (opts s) ->
  threshold_typed s ->
  Forall (fun now => failTimestamp s < now) nows ->
  isDown (after_failures nows s) = false /\
  failTimestamp (after_failures nows s) = failTimestamp s /\
  (failCounter s < MaxFails (opts s) ->
   nows <> [] \/ failCounter s = 1 ->
   failCounter (after_failures nows s) = 1).
Proof.
  induction nows as [| now nows IH]; intros s Hd Hc Hm Ht Hall.
  - simpl. repeat split; [exact Hd |]. intros _ [Hn | H1]; [contradiction | exact H1].
  - inversion Hall as [| ? ? Hnow Hrest]; subst. cbn [after_failures].
    destruct (Z.lt_ge_cases (failCounter s) (MaxFails (opts s))) as [Hlt | Hge].
    + rewrite (after_failure_expired now s Hd Hc Hlt Ht Hnow).
      destruct (IH (set_failCounter 1 s)) as (Hd' & Hts' & Hc');
        try assumption; simpl; try lia.
      repeat split; [exact Hd' | exact Hts' |].
      intros _ _. apply Hc'; simpl; [lia | by right].
    + rewrite after_failure_idle by (by right).
      destruct (IH s) as (Hd' & Hts' & Hc'); try assumption.
      repeat split; [exact Hd' | exact Hts' |]. intros Hlt. lia.
Qed.

(** C10. A primary server with [MaxFails >= 2] that is up with
    [failCounter >= 1]: [SetOffline] calls that all come after the
    recorded [failTimestamp], in any number and with no [SetOnline] in
    between, return and leave the server up and raise no event. The
    reset branch puts [failCounter] back to 1 and [failTimestamp] is
    never written, so every further call finds the window expired
    again. *)
Theorem expired_window_never_reaches_down lb srv s (nows : list Time) :
  getServer lb srv = Some s ->
  IsBackup (opts s) = false ->
  2 <= MaxFails (opts s) ->
  threshold_typed s ->
  isDown s = false ->
  1 <= failCounter s ->
  Forall (fun now => failTimestamp s < now) nows ->
  exists lb' tr s',
    run (CallSetOffline srv <$> nows) lb = Some (lb', tr) /\
    getServer lb' srv = Some s' /\
    isDown s' = false /\
    failTimestamp s' = failTimestamp s /\
    events tr = [] /\
    (failCounter s < MaxFails (opts s) -> nows <> [] -> failCounter s' = 1).
Proof.
  intros Hg Hb Hm Ht Hd Hc Hall.
  assert (Hu : untracked s = false) by (apply untracked_false; [exact Hb | lia]).
  destruct (run_failures nows lb srv s Hg Hu) as (lb' & tr & Hrun & Hg' & Hev).
  destruct (after_failures_expired nows s Hd Hc Hm Ht Hall) as (Hd' & Hts' & Hc').
  exists lb', tr, (after_failures nows s).
  repeat split; try assumption.
  - by apply Hev.
  - intros Hlt Hne. apply Hc'; [exact Hlt | by left].
Qed.

Lemma is_int_bounded (z : Z) :
  -9223372036854775808 <= z <= 9223372036854775807 -> GoInt.is_int z.
Proof.
  destruct int_bounds as [Hmin Hmax]. unfold GoInt.is_int.
  rewrite Hmin, Hmax. trivial.
Qed.

Lemma after_calls_failures lb srv s nows :
  getServer lb srv = Some s -> untracked s = false ->
  after_calls lb (CallSetOffline srv <$> nows) srv =
    Some (after_failures nows s).
Proof.
  intros Hg Hu.
  destruct (run_failures nows lb srv s Hg Hu) as (lb' & tr & Hrun & Hg' & _).
  unfold after_calls. rewrite Hrun. simpl. exact Hg'.
Qed.

(** C2, as the code has it. A primary server with [MaxFails = 3] and
    [FailTimeout = T], up with [failCounter = 0]: three [SetOffline]
    calls of which the second and the third come no later than [T] after
    the first one put the server down; three calls each more than
    [T >= 0] after the one before leave the counter at 1 each time and
    the server up. *)
Theorem three_failures_and_the_window lb srv s (T : Duration) :
  getServer lb srv = Some s ->
  IsBackup (opts s) = false ->
  MaxFails (opts s) = 3 ->
  FailTimeout (opts s) = T ->
  isDown s = false ->
  failCounter s = 0 ->
  (forall t1 t2 t3 : Time,
     t2 <= t1 + T -> t3 <= t1 + T ->
     exists s',
       after_calls lb (CallSetOffline srv <$> [t1; t2; t3]) srv = Some s' /\
       isDown s' = true /\ failCounter s' = 3 /\
       failTimestamp s' = t3 + T) /\
  (forall t1 t2 t3 : Time,
     0 <= T -> t2 - t1 > T -> t3 - t2 > T ->
     Forall (fun nows =>
               exists s',
                 after_calls lb (CallSetOffline srv <$> nows) srv = Some s' /\
                 isDown s' = false /\ failCounter s' = 1)
            [[t1]; [t1; t2]; [t1; t2; t3]]).
Proof.
  intros Hg Hb Hm HT Hd Hc.
  assert (Hu : untracked s = false) by (apply untracked_false; [exact Hb | lia]).
  assert (Hty : forall s0 : Server UD, opts s0 = opts s -> threshold_typed s0).
  { intros s0 Ho. unfold threshold_typed. rewrite Ho, Hm.
    apply is_int_bounded. lia. }
  assert (E1 : forall t1, after_failure t1 s =
                 set_failTimestamp (t1 + T) (set_failCounter 1 s)).
  { intros t1. rewrite after_failure_first by (assumption || lia).
    unfold time_Add. rewrite HT. reflexivity. }
  split.
  - intros t1 t2 t3 H2 H3.
    rewrite (after_calls_failures lb srv s _ Hg Hu). eexists. split; [reflexivity |].
    cbn [after_failures]. rewrite E1.
    rewrite (after_failure_within t2 (set_failTimestamp (t1 + T) (set_failCounter 1 s)));
      fields; try solve [exact Hd | by apply Hty | lia].
    rewrite (after_failure_reach t3); fields;
      try solve [exact Hd | by apply Hty | lia].
    unfold time_Add. rewrite Hm, HT. repeat split.
  - intros t1 t2 t3 H0 H2 H3.
    repeat apply Forall_cons_2; [| | | apply Forall_nil_2];
      rewrite (after_calls_failures lb srv s _ Hg Hu);
      (eexists; split; [reflexivity |]); cbn [after_failures]; rewrite E1.
    + split; [exact Hd | reflexivity].
    + rewrite (after_failure_expired t2); fields;
        try solve [exact Hd | by apply Hty | lia].
      split; [exact Hd | reflexivity].
    + rewrite (after_failure_expired t2 (set_failTimestamp (t1 + T) (set_failCounter 1 s)));
        fields; try solve [exact Hd | by apply Hty | lia].
      rewrite (after_failure_expired t3); fields;
        try solve [exact Hd | by apply Hty | lia].
      split; [exact Hd | reflexivity].
Qed.

(** ** The arguments of the down event *)

(** C8, as the code has it. [SetOffline] takes no error from its caller.
    When it puts the server down, it calls [raiseEvent] once, after the
    lock is released, with the event type [ServerDownEvent] and the
    server and nothing else: no error value is among the arguments. *)
Theorem down_event_has_type_and_server_only lb srv now s :
  getServer lb srv = Some s ->
  exists lb' tr s',
    SetOffline srv now lb = Some (lb', tr) /\
    getServer lb' srv = Some s' /\
    (isDown s = false -> isDown s' = true ->
       tr = [Lock; Unlock;
             RaiseEvent [ArgEvent ServerDownEvent; ArgServer srv]] /\
       events tr = [[ArgEvent ServerDownEvent; ArgServer srv]] /\
       (forall args err, In args (events tr) -> ~ In (ArgError err) args)).
Proof.
  intros Hg. destruct (untracked s) eqn:Hu.
  - exists lb, [], s. split; [eapply SetOffline_untracked; eassumption |].
    split; [exact Hg |]. intros Hd Hd'. congruence.
  - rewrite (SetOffline_tracked _ _ now _ Hg Hu).
    eexists _, _, _. split; [reflexivity |].
    split; [eapply getServer_store_eq; exact Hg |].
    rewrite SetOffline_locked_server, SetOffline_locked_notify.
    intros -> ->. simpl. repeat split.
    intros args err [<- | []] [He | [He | []]]; discriminate.
Qed.

(** When the counter left by a failure is at the threshold: the failure
    is the one that completes [MaxFails], and it opens the window or
    falls within it. *)
Lemma after_failure_at_threshold now s :
  isDown s = false ->
  0 <= failCounter s < MaxFails (opts s) ->
  threshold_typed s ->
  failCounter (after_failure now s) = MaxFails (opts s) <->
  failCounter s + 1 = MaxFails (opts s) /\
  (failCounter s = 0 \/ now <= failTimestamp s).
Proof.
  intros Hd [H0 Hlt] Ht. rewrite (after_failure_active now s Hd Hlt).
  assert (Hfc : forall b : bool,
            failCounter
              (if b then
                 set_failTimestamp (time_Add now (FailTimeout (opts s)))
                   (set_isDown true (count_failure now s))
               else count_failure now s)
            = failCounter (count_failure now s))
    by (intros []; reflexivity).
  rewrite Hfc.
  destruct (count_failure_counter now s H0 Hlt Ht)
    as [[Hz ->] | [(H1 & Hexp & ->) | (H1 & Hin & ->)]]; fields; lia.
Qed.

(** ** Further properties of the two setters *)

(** *** What a call leaves alone *)

(** X1. A call on a server of the balancer returns and writes nothing but
    the health fields of that server and [primaryOnlineCount]: every
    other server, primary or backup, is exactly as before, and so are
    the configuration of the target and the cursors of the groups. *)
Theorem call_touches_only_its_server lb c s :
  getServer lb (call_target c) = Some s ->
  exists lb' tr s',
    call c lb = Some (lb', tr) /\
    getServer lb' (call_target c) = Some s' /\
    config s' = config s /\
    (forall srv', srv' <> call_target c ->
       getServer lb' srv' = getServer lb srv') /\
    same_config lb lb'.
Proof.
  intros Hg. destruct (call_store lb c s Hg) as (tr & Hcall & _).
  pose proof (call_effect_config c s (primaryOnlineCount lb)) as Hcfg.
  eexists _, tr, _. split; [exact Hcall |].
  split; [eapply getServer_store_eq; exact Hg |].
  split; [exact Hcfg |].
  eapply same_but_store; eassumption.
Qed.

(** *** The trace of a call *)

Lemma events_for_app srv tr1 tr2 :
  events_for srv (tr1 ++ tr2) = events_for srv tr1 ++ events_for srv tr2.
Proof. unfold events_for. rewrite events_app. apply omap_app. Qed.

Lemma lock_safe_app tr1 : forall held tr2,
  lock_safe held tr1 = true -> lock_safe false tr2 = true ->
  lock_safe held (tr1 ++ tr2) = true.
Proof.
  induction tr1 as [| a tr1 IH]; intros held tr2 H1 H2.
  - simpl in *. destruct held; [discriminate | exact H2].
  - destruct a; simpl in *; apply andb_true_iff in H1 as [Hh H1];
      rewrite Hh; simpl; by apply IH.
Qed.

Lemma alternating_app evs1 : forall down evs2,
  alternating down (evs1 ++ evs2) =
    match alternating down evs1 with
    | Some down' => alternating down' evs2
    | None => None
    end.
Proof.
  induction evs1 as [| e evs1 IH]; intros down evs2; [reflexivity |].
  destruct e, down; simpl; try reflexivity; apply IH.
Qed.

Lemma alternating_transition (before after : bool) :
  alternating before (transition_events before after) = Some after.
Proof. destruct before, after; reflexivity. Qed.

Lemma event_of_self srv ev :
  event_of srv [ArgEvent ev; ArgServer srv] = Some ev.
Proof. unfold event_of. by rewrite decide_True. Qed.

Lemma event_of_other srv srv' ev :
  srv' <> srv -> event_of srv' [ArgEvent ev; ArgServer srv] = None.
Proof. intros Hne. unfold event_of. by rewrite decide_False by congruence. Qed.

Lemma events_for_raise_self srv ev :
  events_for srv ([Lock; Unlock] ++ [RaiseEvent [ArgEvent ev; ArgServer srv]])
  = [ev].
Proof.
  unfold events_for. cbn [events app omap list_omap].
  by rewrite event_of_self.
Qed.

Lemma events_for_raise_other srv srv' ev :
  srv' <> srv ->
  events_for srv' ([Lock; Unlock] ++ [RaiseEvent [ArgEvent ev; ArgServer srv]])
  = [].
Proof.
  intros Hne. unfold events_for. cbn [events app omap list_omap].
  by rewrite event_of_other.
Qed.

(** A call on a server of the balancer: what it stores, that its trace
    keeps the mutex discipline, and that it raises the event of the
    transition of its server and no event for another server. *)
Lemma call_outcome lb c s :
  getServer lb (call_target c) = Some s ->
  exists s' count' tr,
    call c lb = Some (store lb (call_target c) s' count', tr) /\
    config s' = config s /\
    lock_safe false tr = true /\
    events_for (call_target c) tr = transition_events (isDown s) (isDown s') /\
    (forall srv', srv' <> call_target c -> events_for srv' tr = []).
Proof.
  intros Hg. destruct (untracked s) eqn:Hu.
  { exists s, (primaryOnlineCount lb), [].
    rewrite (store_same _ _ _ Hg).
    split; [by apply (call_untracked lb c s) |].
    repeat split. destruct (isDown s); reflexivity. }
  destruct c as [srv | srv now]; cbn [call_target call] in *.
  - rewrite (SetOnline_tracked _ _ _ Hg Hu).
    destruct (isDown s) eqn:Hd.
    + rewrite (SetOnline_locked_down _ _ Hd). cbn [fst snd].
      eexists _, _, _. split; [reflexivity |]. repeat split.
      * apply events_for_raise_self.
      * intros srv' Hne. by apply events_for_raise_other.
    + rewrite (SetOnline_locked_up _ _ Hd). cbn [fst snd].
      eexists _, _, _. split; [reflexivity |]. repeat split.
      fields. rewrite Hd. reflexivity.
  - rewrite (SetOffline_tracked _ _ now _ Hg Hu).
    rewrite SetOffline_locked_server, SetOffline_locked_notify.
    eexists _, _, _. split; [reflexivity |].
    split; [apply after_failure_config |].
    destruct (isDown s) eqn:Hd.
    + rewrite after_failure_idle by (by left). rewrite Hd. repeat split.
    + destruct (isDown (after_failure now s)); simpl; repeat split.
      * apply events_for_raise_self.
      * intros srv' Hne. by apply events_for_raise_other.
Qed.

Lemma call_valid_store lb srv s s' count c :
  getServer lb srv = Some s -> config s' = config s ->
  call_valid lb c -> call_valid (store lb srv s' count) c.
Proof.
  intros Hg Hc [s0 Hs0].
  destruct (same_config_getServer lb (store lb srv s' count) _ s0
              (same_config_store lb srv s s' count Hg Hc) Hs0) as (s1 & Hs1 & _).
  exists s1. exact Hs1.
Qed.

(** *** The mutex and the event handler *)

(** X2. Any sequence of calls on servers of the balancer keeps the mutex
    discipline: the lock is taken and released in turn, it is free at the
    end, and every [raiseEvent] call happens while it is free. *)
Theorem events_are_raised_outside_the_lock cs : forall lb,
  Forall (call_valid lb) cs ->
  exists lb' tr, run cs lb = Some (lb', tr) /\ lock_safe false tr = true.
Proof.
  induction cs as [| c cs IH]; intros lb Hall.
  - exists lb, []. split; reflexivity.
  - inversion Hall as [| ? ? [s Hs] Hcs]; subst.
    destruct (call_outcome lb c s Hs) as (s' & n & tr1 & Hcall & Hcfg & Hlk & _).
    destruct (IH (store lb (call_target c) s' n)) as (lb2 & tr2 & Hrun & Hlk2).
    { eapply Forall_impl; [exact Hcs |].
      intros c'. by apply (call_valid_store lb _ s). }
    exists lb2, (tr1 ++ tr2). rewrite (run_cons c cs lb _ tr1 Hcall), Hrun.
    split; [reflexivity | by apply lock_safe_app].
Qed.

(** X3. Across any sequence of calls on servers of the balancer, the events
    raised for one server alternate with its down flag: a down event
    only for a server that was up, an up event only for one that was
    down, starting from the flag before the calls and ending at the flag
    after them. No transition is announced twice and none is missed. *)
Theorem events_alternate_with_the_down_flag cs : forall lb srv s,
  Forall (call_valid lb) cs ->
  getServer lb srv = Some s ->
  exists lb' tr s',
    run cs lb = Some (lb', tr) /\
    getServer lb' srv = Some s' /\
    alternating (isDown s) (events_for srv tr) = Some (isDown s').
Proof.
  induction cs as [| c cs IH]; intros lb srv s Hall Hg.
  - exists lb, [], s. repeat split. exact Hg.
  - inversion Hall as [| ? ? [s0 Hs0] Hcs]; subst.
    destruct (call_outcome lb c s0 Hs0)
      as (s0' & n & tr1 & Hcall & Hcfg & _ & Hev & Hother).
    assert (Hvalid : Forall (call_valid (store lb (call_target c) s0' n)) cs).
    { eapply Forall_impl; [exact Hcs |].
      intros c'. by apply (call_valid_store lb _ s0). }
    destruct (decide (srv = call_target c)) as [-> | Hne].
    + assert (s0 = s) as -> by congruence.
      destruct (IH _ (call_target c) s0' Hvalid
                  (getServer_store_eq lb _ s s0' n Hg))
        as (lb2 & tr2 & s2 & Hrun & Hg2 & Halt).
      exists lb2, (tr1 ++ tr2), s2.
      rewrite (run_cons c cs lb _ tr1 Hcall), Hrun.
      repeat split; [exact Hg2 |].
      rewrite events_for_app, alternating_app, Hev, alternating_transition.
      exact Halt.
    + assert (Hg1 : getServer (store lb (call_target c) s0' n) srv = Some s)
        by (rewrite getServer_store_ne by exact Hne; exact Hg).
      destruct (IH _ srv s Hvalid Hg1) as (lb2 & tr2 & s2 & Hrun & Hg2 & Halt).
      exists lb2, (tr1 ++ tr2), s2.
      rewrite (run_cons c cs lb _ tr1 Hcall), Hrun.
      repeat split; [exact Hg2 |].
      rewrite events_for_app, (Hother srv Hne). exact Halt.
Qed.

(** *** Counting up to the threshold *)

(** With a threshold of 1 the first failure puts the server down. *)
Lemma after_failure_first_reach now s :
  isDown s = false -> failCounter s = 0 -> MaxFails (opts s) = 1 ->
  after_failure now s =
    set_failTimestamp (time_Add now (FailTimeout (opts s)))
      (set_isDown true (set_failCounter 1 s)).
Proof.
  intros Hd Hc Hm. rewrite after_failure_active by (assumption || lia).
  rewrite count_failure_first by (rewrite Hc; reflexivity).
  fields. rewrite Hm. reflexivity.
Qed.

(** Failures that all come no later than the deadline [D] of the open
    window, as many as the threshold still allows. *)
Lemma after_failures_within (rest : list Time) : forall s (D : Time),
  isDown s = false -> 1 <= failCounter s ->
  failCounter s < MaxFails (opts s) -> threshold_typed s ->
  failTimestamp s = D ->
  Forall (fun t => t <= D) rest ->
  failCounter s + Z.of_nat (length rest) <= MaxFails (opts s) ->
  opts (after_failures rest s) = opts s /\
  failCounter (after_failures rest s) = failCounter s + Z.of_nat (length rest) /\
  isDown (after_failures rest s)
    = (failCounter s + Z.of_nat (length rest) =? MaxFails (opts s)) /\
  (isDown (after_failures rest s) = false ->
   failTimestamp (after_failures rest s) = D).
Proof.
  induction rest as [| t rest IH]; intros s D Hd Hc Hlt Ht HD Hall Hlen.
  - cbn [after_failures length]. rewrite Z.add_0_r.
    destruct (Z.eqb_spec (failCounter s) (MaxFails (opts s))); [lia |].
    repeat split; try assumption. intros _. exact HD.
  - inversion Hall as [| ? ? Hin Hrest]; subst.
    cbn [after_failures]. rewrite length_cons, Nat2Z.inj_succ in *.
    destruct (Z.eq_dec (failCounter s + 1) (MaxFails (opts s))) as [Heq | Hne].
    + assert (rest = []) as -> by (destruct rest; [reflexivity | simpl in Hlen; lia]).
      rewrite (after_failure_reach t s Hd Hc Heq Ht Hin).
      cbn [after_failures length]. fields.
      replace (failCounter s + Z.succ (Z.of_nat 0)) with (MaxFails (opts s))
        by lia.
      rewrite Z.eqb_refl. repeat split. discriminate.
    + rewrite (after_failure_within t s Hd Hc ltac:(lia) Ht Hin).
      pose proof (IH (set_failCounter (failCounter s + 1) s) (failTimestamp s)
                    Hd ltac:(fields; lia) ltac:(fields; lia) Ht eq_refl Hrest
                    ltac:(fields; lia)) as (Ho & Hfc & Hdn & Hts).
      cbn [opts failCounter set_failCounter] in Ho, Hfc, Hdn.
      split; [exact Ho |]. split; [rewrite Hfc; lia |].
      split; [rewrite Hdn; f_equal; lia | exact Hts].
Qed.

(** X4. As many failures as [MaxFails], and no fewer, put a server down when
    they fall in one window. A primary server that is up with
    [failCounter = 0] receives [SetOffline] calls at [t1] and then at
    instants no later than [t1 + FailTimeout] (the deadline itself
    included), at most [MaxFails] calls in all: afterwards [failCounter]
    is the number of calls, and the server is down exactly when that
    number is [MaxFails]; while it is up the deadline is still
    [t1 + FailTimeout]. *)
Theorem failures_in_one_window_count_up lb srv s (t1 : Time) (rest : list Time) :
  getServer lb srv = Some s ->
  IsBackup (opts s) = false ->
  threshold_typed s ->
  isDown s = false ->
  failCounter s = 0 ->
  Forall (fun t => t <= t1 + FailTimeout (opts s)) rest ->
  Z.of_nat (length (t1 :: rest)) <= MaxFails (opts s) ->
  exists lb' tr s',
    run (CallSetOffline srv <$> t1 :: rest) lb = Some (lb', tr) /\
    getServer lb' srv = Some s' /\
    failCounter s' = Z.of_nat (length (t1 :: rest)) /\
    isDown s' = (Z.of_nat (length (t1 :: rest)) =? MaxFails (opts s)) /\
    (isDown s' = false -> failTimestamp s' = t1 + FailTimeout (opts s)).
Proof.
  intros Hg Hb Ht Hd Hc Hall Hlen.
  rewrite length_cons, Nat2Z.inj_succ in *.
  assert (Hu : untracked s = false) by (apply untracked_false; [exact Hb | lia]).
  destruct (run_failures (t1 :: rest) lb srv s Hg Hu) as (lb' & tr & Hrun & Hg' & _).
  exists lb', tr, (after_failures (t1 :: rest) s).
  split; [exact Hrun |]. split; [exact Hg' |].
  cbn [after_failures].
  destruct (Z.eq_dec (MaxFails (opts s)) 1) as [H1 | Hn1].
  - assert (rest = []) as -> by (destruct rest; [reflexivity | simpl in Hlen; lia]).
    rewrite (after_failure_first_reach t1 s Hd Hc H1).
    cbn [after_failures length]. fields. rewrite H1.
    repeat split; discriminate.
  - rewrite (after_failure_first t1 s Hd Hc ltac:(lia)).
    assert (Hlt : 1 < MaxFails (opts s)) by lia.
    assert (Hroom : 1 + Z.of_nat (length rest) <= MaxFails (opts s)) by lia.
    pose proof (after_failures_within rest
                  (set_failTimestamp (time_Add t1 (FailTimeout (opts s)))
                     (set_failCounter 1 s))
                  (t1 + FailTimeout (opts s))
                  Hd ltac:(fields; lia) Hlt Ht eq_refl Hall Hroom)
      as (Ho & Hfc & Hdn & Hts).
    cbn [opts failCounter set_failCounter set_failTimestamp] in Ho, Hfc, Hdn.
    split; [rewrite Hfc; lia |].
    split; [rewrite Hdn; f_equal; lia | exact Hts].
Qed.

(** Failures fewer than the threshold leaves room for. *)
Lemma after_failures_few (nows : list Time) : forall s,
  isDown s = false -> 0 <= failCounter s -> threshold_typed s ->
  failCounter s + Z.of_nat (length nows) < MaxFails (opts s) ->
  isDown (after_failures nows s) = false /\
  0 <= failCounter (after_failures nows s)
    <= failCounter s + Z.of_nat (length nows).
Proof.
  induction nows as [| now nows IH]; intros s Hd Hc Ht Hlen.
  - cbn [after_failures length]. split; [exact Hd | lia].
  - cbn [after_failures]. rewrite length_cons, Nat2Z.inj_succ in *.
    assert (Hlt : failCounter s < MaxFails (opts s)) by lia.
    assert (Hstep : isDown (after_failure now s) = false /\
                    opts (after_failure now s) = opts s /\
                    0 <= failCounter (after_failure now s) <= failCounter s + 1).
    { rewrite (after_failure_active now s Hd Hlt).
      destruct (count_failure_counter now s Hc Hlt Ht)
        as [[Hz ->] | [(H1 & _ & ->) | (H1 & _ & ->)]]; fields;
        match goal with
        | |- context [?a =? ?b] => destruct (Z.eqb_spec a b); [lia |]
        end; fields; repeat split; (exact Hd || lia).
    }
    destruct Hstep as (Hd1 & Ho1 & Hc1).
    destruct (IH (after_failure now s)) as (Hd2 & Hc2); try assumption;
      try lia.
    + unfold threshold_typed. rewrite Ho1. exact Ht.
    + rewrite Ho1. lia.
    + split; [exact Hd2 | lia].
Qed.

(** X5. However the failures are spread in time, a server never goes down
    before [MaxFails - failCounter] of them: [SetOffline] calls on a
    primary server that is up, fewer than that, at any instants, leave it
    up and raise no event. In particular, after a [SetOnline] fewer than
    [MaxFails] failures never put the server down. *)
Theorem too_few_failures_never_reach_down lb srv s (nows : list Time) :
  getServer lb srv = Some s ->
  IsBackup (opts s) = false ->
  threshold_typed s ->
  isDown s = false ->
  0 <= failCounter s ->
  failCounter s + Z.of_nat (length nows) < MaxFails (opts s) ->
  exists lb' tr s',
    run (CallSetOffline srv <$> nows) lb = Some (lb', tr) /\
    getServer lb' srv = Some s' /\
    isDown s' = false /\
    0 <= failCounter s' <= failCounter s + Z.of_nat (length nows) /\
    events tr = [].
Proof.
  intros Hg Hb Ht Hd Hc Hlen.
  assert (Hu : untracked s = false) by (apply untracked_false; [exact Hb | lia]).
  destruct (run_failures nows lb srv s Hg Hu) as (lb' & tr & Hrun & Hg' & Hev).
  destruct (after_failures_few nows s Hd Hc Ht Hlen) as (Hd' & Hc').
  exists lb', tr, (after_failures nows s).
  repeat split; try assumption; try lia. by apply Hev.
Qed.

(** *** A failure followed by a success *)

(** Decrementing and then incrementing an [int] gives it back, also
    across the wrap-around at the smallest [int]. *)
Lemma add_sub_cancel (c : Z) :
  GoInt.is_int c -> GoInt.add (GoInt.sub c 1) 1 = c.
Proof.
  destruct int_bounds as [Hmin Hmax].
  unfold GoInt.is_int, GoInt.add, GoInt.sub, GoInt.wrap.
  rewrite Hmin, Hmax.
  change (2 ^ 63) with 9223372036854775808.
  change (2 ^ 64) with 18446744073709551616.
  intros Hc.
  replace ((c - 1 + 9223372036854775808) mod 18446744073709551616
           - 9223372036854775808 + 1 + 9223372036854775808)
    with ((c - 1 + 9223372036854775808) mod 18446744073709551616 + 1) by lia.
  rewrite Z.add_mod_idemp_l by lia.
  replace (c - 1 + 9223372036854775808 + 1) with (c + 9223372036854775808)
    by lia.
  rewrite Z.mod_small; lia.
Qed.

Lemma SetOffline_locked_count now s count :
  (SetOffline_locked now s count).1.2 =
    if negb (isDown s) && isDown (after_failure now s)
    then GoInt.sub count 1 else count.
Proof.
  destruct (isDown s) eqn:Hd.
  { rewrite SetOffline_locked_idle by (by left). reflexivity. }
  destruct (Z.lt_ge_cases (failCounter s) (MaxFails (opts s))) as [Hlt | Hge].
  2:{ rewrite SetOffline_locked_idle, after_failure_idle by (by right).
      rewrite Hd. reflexivity. }
  rewrite (SetOffline_locked_active now _ _ Hd Hlt), after_failure_active
    by assumption.
  destruct (failCounter (count_failure now s) =? MaxFails (opts s)); simpl;
    [reflexivity |].
  destruct (count_failure_frame now s) as [_ ->]. by rewrite Hd.
Qed.

(** [SetOffline] on a tracked server, in full. *)
Lemma SetOffline_effect lb srv now s :
  getServer lb srv = Some s -> untracked s = false ->
  SetOffline srv now lb =
    Some (store lb srv (after_failure now s)
            (if negb (isDown s) && isDown (after_failure now s)
             then GoInt.sub (primaryOnlineCount lb) 1
             else primaryOnlineCount lb),
          [Lock; Unlock] ++
          (if negb (isDown s) && isDown (after_failure now s)
           then [RaiseEvent [ArgEvent ServerDownEvent; ArgServer srv]]
           else [])).
Proof.
  intros Hg Hu. rewrite (SetOffline_tracked _ _ now _ Hg Hu).
  by rewrite SetOffline_locked_server, SetOffline_locked_notify,
    SetOffline_locked_count.
Qed.

(** [SetOnline] on a tracked server, in full. *)
Lemma SetOnline_effect lb srv s :
  getServer lb srv = Some s -> untracked s = false ->
  SetOnline srv lb =
    Some (store lb srv (set_isDown false (set_failCounter 0 s))
            (if isDown s then GoInt.add (primaryOnlineCount lb) 1
             else primaryOnlineCount lb),
          [Lock; Unlock] ++
          (if isDown s
           then [RaiseEvent [ArgEvent ServerUpEvent; ArgServer srv]]
           else [])).
Proof.
  intros Hg Hu. rewrite (SetOnline_tracked _ _ _ Hg Hu).
  destruct (isDown s) eqn:Hd.
  - rewrite (SetOnline_locked_down _ _ Hd). reflexivity.
  - rewrite (SetOnline_locked_up _ _ Hd). cbn [fst snd].
    unfold set_isDown, set_failCounter. fields. rewrite Hd. reflexivity.
Qed.

(** The failure that completes the threshold within the window. *)
Lemma after_failure_completes now s :
  isDown s = false -> 0 <= failCounter s -> threshold_typed s ->
  failCounter s + 1 = MaxFails (opts s) ->
  failCounter s = 0 \/ now <= failTimestamp s ->
  after_failure now s =
    set_failTimestamp (time_Add now (FailTimeout (opts s)))
      (set_isDown true (set_failCounter (MaxFails (opts s)) s)).
Proof.
  intros Hd Hc Ht Hm Hwin.
  destruct (Z.eq_dec (failCounter s) 0) as [Hz | Hnz].
  - rewrite after_failure_first_reach by (assumption || lia).
    replace (MaxFails (opts s)) with 1 by lia. reflexivity.
  - apply after_failure_reach; try assumption; lia.
Qed.

(** X6. The [SetOffline] call that puts a primary server down, followed by
    [SetOnline]: a down event and then an up event are raised,
    [primaryOnlineCount] is back at its value, every other server is
    untouched, and the server is as it was except that [failCounter] is 0
    and [failTimestamp] is [now + FailTimeout]. *)
Theorem failure_then_success_restores_the_count lb srv now s :
  getServer lb srv = Some s ->
  IsBackup (opts s) = false ->
  threshold_typed s ->
  GoInt.is_int (primaryOnlineCount lb) ->
  isDown s = false ->
  0 <= failCounter s ->
  failCounter s + 1 = MaxFails (opts s) ->
  failCounter s = 0 \/ now <= failTimestamp s ->
  exists lb1 tr1 lb2 tr2,
    SetOffline srv now lb = Some (lb1, tr1) /\
    SetOnline srv lb1 = Some (lb2, tr2) /\
    events (tr1 ++ tr2) =
      [[ArgEvent ServerDownEvent; ArgServer srv];
       [ArgEvent ServerUpEvent; ArgServer srv]] /\
    primaryOnlineCount lb2 = primaryOnlineCount lb /\
    getServer lb2 srv =
      Some (set_failTimestamp (time_Add now (FailTimeout (opts s)))
              (set_failCounter 0 s)) /\
    (forall srv', srv' <> srv -> getServer lb2 srv' = getServer lb srv').
Proof.
  intros Hg Hb Ht Hint Hd Hc Hm Hwin.
  assert (Hu : untracked s = false) by (apply untracked_false; [exact Hb | lia]).
  pose proof (after_failure_completes now s Hd Hc Ht Hm Hwin) as Haf.
  set (s1 := after_failure now s) in *.
  assert (Hd1 : isDown s1 = true) by (rewrite Haf; reflexivity).
  assert (Hu1 : untracked s1 = false).
  { rewrite (untracked_config s s1); [exact Hu |]. apply after_failure_config. }
  pose proof (SetOffline_effect lb srv now s Hg Hu) as Hoff.
  fold s1 in Hoff. rewrite Hd, Hd1 in Hoff. cbn [negb andb] in Hoff.
  set (lb1 := store lb srv s1 (GoInt.sub (primaryOnlineCount lb) 1)) in *.
  assert (Hg1 : getServer lb1 srv = Some s1)
    by (eapply getServer_store_eq; exact Hg).
  pose proof (SetOnline_effect lb1 srv s1 Hg1 Hu1) as Hon.
  rewrite Hd1 in Hon.
  eexists _, _, _, _. split; [exact Hoff |]. split; [exact Hon |].
  split; [reflexivity |].
  split.
  { rewrite primaryOnlineCount_store. unfold lb1.
    rewrite primaryOnlineCount_store. by apply add_sub_cancel. }
  split.
  { rewrite (getServer_store_eq lb1 srv s1 _ _ Hg1). f_equal.
    rewrite Haf. unfold set_isDown, set_failCounter, set_failTimestamp. fields.
    rewrite Hd. reflexivity. }
  intros srv' Hne. rewrite getServer_store_ne by exact Hne.
  unfold lb1. by rewrite getServer_store_ne.
Qed.

(** X7. [SetOnline] twice is [SetOnline] once: the second call leaves the
    balancer as the first call left it and raises no event. *)
Theorem SetOnline_is_idempotent lb srv s :
  getServer lb srv = Some s ->
  exists lb1 tr1 tr2,
    SetOnline srv lb = Some (lb1, tr1) /\
    SetOnline srv lb1 = Some (lb1, tr2) /\
    events tr2 = [].
Proof.
  intros Hg. destruct (untracked s) eqn:Hu.
  - pose proof (SetOnline_untracked lb srv s Hg Hu) as H.
    exists lb, [], []. repeat split; exact H.
  - pose proof (SetOnline_effect lb srv s Hg Hu) as H1.
    set (s1 := set_isDown false (set_failCounter 0 s)) in *.
    set (n := if isDown s then GoInt.add (primaryOnlineCount lb) 1
              else primaryOnlineCount lb) in *.
    assert (Hg1 : getServer (store lb srv s1 n) srv = Some s1)
      by (eapply getServer_store_eq; exact Hg).
    pose proof (SetOnline_effect (store lb srv s1 n) srv s1 Hg1 Hu) as H2.
    assert (Hd1 : isDown s1 = false) by reflexivity.
    rewrite Hd1 in H2.
    change (set_isDown false (set_failCounter 0 s1)) with s1 in H2.
    rewrite (store_same _ _ _ Hg1) in H2.
    eexists _, _, _. split; [exact H1 |]. split; [exact H2 | reflexivity].
Qed.

(** X8. A success clears the stale window: after [SetOnline] on a primary
    server with [MaxFails >= 2], in whatever state it was, the next
    [SetOffline] at [now] leaves the server up with [failCounter = 1] and
    opens a window that ends at [now + FailTimeout]. *)
Theorem success_then_failure_opens_a_window lb srv now s :
  getServer lb srv = Some s ->
  IsBackup (opts s) = false ->
  2 <= MaxFails (opts s) ->
  exists lb' tr s',
    run [CallSetOnline srv; CallSetOffline srv now] lb = Some (lb', tr) /\
    getServer lb' srv = Some s' /\
    isDown s' = false /\
    failCounter s' = 1 /\
    failTimestamp s' = time_Add now (FailTimeout (opts s)).
Proof.
  intros Hg Hb Hm.
  assert (Hu : untracked s = false) by (apply untracked_false; [exact Hb | lia]).
  pose proof (SetOnline_effect lb srv s Hg Hu) as H1.
  set (s1 := set_isDown false (set_failCounter 0 s)) in *.
  set (n := if isDown s then GoInt.add (primaryOnlineCount lb) 1
            else primaryOnlineCount lb) in *.
  assert (Hg1 : getServer (store lb srv s1 n) srv = Some s1)
    by (eapply getServer_store_eq; exact Hg).
  pose proof (SetOffline_effect (store lb srv s1 n) srv now s1 Hg1 Hu) as H2.
  assert (Haf : after_failure now s1 =
                set_failTimestamp (time_Add now (FailTimeout (opts s)))
                  (set_failCounter 1 s1))
    by exact (after_failure_first now s1 eq_refl eq_refl Hm).
  rewrite Haf in H2. cbn [isDown set_failTimestamp set_failCounter s1 set_isDown
                          negb andb] in H2.
  eexists _, _, _.
  rewrite (run_cons (CallSetOnline srv) _ lb _ _ H1).
  rewrite (run_cons (CallSetOffline srv now) [] _ _ _ H2).
  cbn [run]. split; [reflexivity |].
  split; [eapply getServer_store_eq; exact Hg1 |].
  repeat split.
Qed.

(** *** The count across sequences of calls *)

Lemma call_keeps_count lb c s :
  getServer lb (call_target c) = Some s ->
  groups_wf lb -> count_inv lb ->
  exists lb' tr,
    call c lb = Some (lb', tr) /\
    groups_wf lb' /\ count_inv lb' /\
    length (srvList (primaryGroup lb')) = length (srvList (primaryGroup lb)) /\
    (forall c', call_valid lb c' -> call_valid lb' c').
Proof.
  intros Hg Hwf Hcount.
  destruct (call_store lb c s Hg) as (tr & Hcall & _).
  pose proof (call_effect_config c s (primaryOnlineCount lb)) as Hcfg.
  set (e := call_effect c s (primaryOnlineCount lb)) in *.
  eexists _, tr. split; [exact Hcall |].
  assert (Hvalid : forall c', call_valid lb c' ->
                              call_valid (store lb (call_target c) e.1.1 e.1.2) c')
    by (intros c'; by apply (call_valid_store lb _ s)).
  destruct Hwf as (Hprim & Hbak & Hlen).
  destruct (untracked s) eqn:Hu.
  { unfold e. rewrite (call_effect_untracked c s _ Hu). cbn [fst snd].
    rewrite (store_same _ _ _ Hg). repeat split; try assumption.
    intros c' Hc'. exact Hc'. }
  assert (Hrb : refBackup (call_target c) = false).
  { destruct (refBackup (call_target c)) eqn:Hrb; [| reflexivity].
    unfold getServer, group in Hg. rewrite Hrb in Hg.
    pose proof (Forall_lookup_1 _ _ _ _ Hbak Hg) as Hib. simpl in Hib.
    unfold untracked in Hu. rewrite Hib, orb_true_r in Hu. discriminate. }
  assert (Hl : srvList (primaryGroup lb) !! refPos (call_target c) = Some s).
  { unfold getServer, group in Hg. rewrite Hrb in Hg. exact Hg. }
  assert (Hoc : onlineCount (<[refPos (call_target c) := e.1.1]>
                               (srvList (primaryGroup lb)))
                = primaryOnlineCount lb
                  + transition_delta (isDown s) (isDown e.1.1)).
  { rewrite (onlineCount_insert _ _ _ _ Hl), transition_delta_online.
    rewrite Hcount. lia. }
  assert (Hint : GoInt.is_int (primaryOnlineCount lb
                  + transition_delta (isDown s) (isDown e.1.1))).
  { rewrite <- Hoc.
    pose proof (onlineCount_bounds
                  (<[refPos (call_target c) := e.1.1]>
                     (srvList (primaryGroup lb)))) as Hb.
    rewrite length_insert in Hb. apply is_int_bounded.
    destruct int_bounds as [_ Hmax]. rewrite Hmax in Hlen. lia. }
  pose proof (call_effect_count c s (primaryOnlineCount lb) Hint) as Hc2.
  fold e in Hc2.
  unfold groups_wf, count_inv, store. rewrite Hrb. cbn [primaryGroup backupGroup
    primaryOnlineCount srvList set_srvList].
  rewrite length_insert.
  repeat split; try assumption.
  - apply Forall_insert; [exact Hprim |].
    unfold config in Hcfg. replace (opts e.1.1) with (opts s) by congruence.
    exact (Forall_lookup_1 _ _ _ _ Hprim Hl).
  - rewrite Hoc. exact Hc2.
  - intros c' Hc'. specialize (Hvalid c' Hc').
    unfold store in Hvalid. rewrite Hrb in Hvalid. exact Hvalid.
Qed.

(** X9. Across any sequence of [SetOnline] and [SetOffline] calls on servers
    of the balancer, [primaryOnlineCount] stays the number of primary
    servers that are not down; it is never negative and never above the
    number of primary servers. *)
Theorem count_stays_exact_across_calls cs : forall lb,
  Forall (call_valid lb) cs ->
  groups_wf lb ->
  count_inv lb ->
  exists lb' tr,
    run cs lb = Some (lb', tr) /\
    groups_wf lb' /\
    count_inv lb' /\
    0 <= primaryOnlineCount lb'
      <= Z.of_nat (length (srvList (primaryGroup lb))).
Proof.
  induction cs as [| c cs IH]; intros lb Hall Hwf Hcount.
  - exists lb, []. split; [reflexivity |]. split; [exact Hwf |].
    split; [exact Hcount |]. rewrite Hcount. apply onlineCount_bounds.
  - inversion Hall as [| ? ? [s Hs] Hcs]; subst.
    destruct (call_keeps_count lb c s Hs Hwf Hcount)
      as (lb1 & tr1 & Hcall & Hwf1 & Hcount1 & Hlen1 & Hvalid1).
    destruct (IH lb1) as (lb2 & tr2 & Hrun & Hwf2 & Hcount2 & Hb2);
      try assumption.
    { eapply Forall_impl; [exact Hcs | exact Hvalid1]. }
    exists lb2, (tr1 ++ tr2). rewrite (run_cons c cs lb lb1 tr1 Hcall), Hrun.
    rewrite Hlen1 in Hb2. split; [reflexivity |]. split; [exact Hwf2 |].
    split; [exact Hcount2 | exact Hb2].
Qed.

(** *** A negative threshold *)

Lemma call_negative_threshold lb c s :
  getServer lb (call_target c) = Some s ->
  MaxFails (opts s) < 0 -> isDown s = false -> 0 <= failCounter s ->
  exists lb' tr s',
    call c lb = Some (lb', tr) /\
    getServer lb' (call_target c) = Some s' /\
    opts s' = opts s /\ isDown s' = false /\ 0 <= failCounter s' /\
    events tr = [] /\
    primaryOnlineCount lb' = primaryOnlineCount lb.
Proof.
  intros Hg Hm Hd Hc.
  destruct (call_store lb c s Hg) as (tr & Hcall & Hev).
  assert (He : exists s', call_effect c s (primaryOnlineCount lb)
                          = (s', primaryOnlineCount lb, false) /\
                          opts s' = opts s /\ isDown s' = false /\
                          0 <= failCounter s').
  { unfold call_effect. destruct (untracked s); [by exists s |].
    destruct c as [srv | srv now].
    - rewrite (SetOnline_locked_up _ _ Hd). exists (set_failCounter 0 s).
      repeat split; [exact Hd | simpl; lia].
    - rewrite SetOffline_locked_idle by (right; lia). by exists s. }
  destruct He as (s' & He & Ho & Hd' & Hc').
  rewrite He in Hcall, Hev. cbn [fst snd] in Hcall, Hev.
  exists (store lb (call_target c) s' (primaryOnlineCount lb)), tr, s'.
  split; [exact Hcall |].
  split; [eapply getServer_store_eq; exact Hg |].
  repeat split; try assumption.
  - destruct Hev as [Hev | Hev]; [exact Hev | discriminate].
  - apply primaryOnlineCount_store.
Qed.

(** X10. A negative [MaxFails] does not pass the guard [MaxFails == 0], yet
    the server can never go down: whatever [SetOnline] and [SetOffline]
    calls a server with [MaxFails < 0] receives, being up with a
    [failCounter] that is not negative, it stays up, no event is raised
    and [primaryOnlineCount] does not move. *)
Theorem negative_threshold_never_goes_down cs : forall lb srv s,
  getServer lb srv = Some s ->
  MaxFails (opts s) < 0 ->
  isDown s = false ->
  0 <= failCounter s ->
  Forall (fun c => call_target c = srv) cs ->
  exists lb' tr s',
    run cs lb = Some (lb', tr) /\
    getServer lb' srv = Some s' /\
    isDown s' = false /\
    events tr = [] /\
    primaryOnlineCount lb' = primaryOnlineCount lb.
Proof.
  induction cs as [| c cs IH]; intros lb srv s Hg Hm Hd Hc Hall.
  - exists lb, [], s. repeat split; assumption.
  - inversion Hall as [| ? ? Htc Hcs]; subst.
    destruct (call_negative_threshold lb c s Hg Hm Hd Hc)
      as (lb1 & tr1 & s1 & Hcall & Hg1 & Ho1 & Hd1 & Hc1 & Hev1 & Hn1).
    destruct (IH lb1 (call_target c) s1 Hg1) as (lb2 & tr2 & s2 & Hrun & Hg2 & Hd2 & Hev2 & Hn2);
      try assumption; [rewrite Ho1; exact Hm |].
    exists lb2, (tr1 ++ tr2), s2.
    rewrite (run_cons c cs lb lb1 tr1 Hcall), Hrun.
    repeat split; try assumption.
    + rewrite events_app, Hev1, Hev2. reflexivity.
    + congruence.
Qed.

End Properties.

(** ** The properties on sample balancers *)

(** C1. On the code the deadline is not restarted. A primary server with
    [MaxFails = 3] and [FailTimeout = 10] is up with [failCounter = 1]
    and [failTimestamp = 10]; [SetOffline] at instant 25, past that
    deadline, leaves [failCounter] at 1 and [failTimestamp] at 10, not
    at [25 + 10]. *)
Theorem expired_window_keeps_old_deadline :
  getServer (Sample.failed_once 3 10) Sample.srv0
    = Some (Sample.failed_server 3 10) /\
  isDown (Sample.failed_server 3 10) = false /\
  failCounter (Sample.failed_server 3 10) = 1 /\
  failTimestamp (Sample.failed_server 3 10) < 25 /\
  exists lb' s',
    SetOffline Sample.srv0 25 (Sample.failed_once 3 10)
      = Some (lb', [Lock; Unlock]) /\
    getServer lb' Sample.srv0 = Some s' /\
    failCounter s' = 1 /\
    failTimestamp s' = 10 /\
    failTimestamp s' <> time_Add 25 (FailTimeout (opts s')).
Proof.
  repeat split; try reflexivity.
  eexists _, _. split; [reflexivity |].
  split; [reflexivity |]. repeat split. discriminate.
Qed.

(** C2 fails as stated: with [MaxFails = 3] and [FailTimeout = 10],
    failures at instants 0, 9 and 18 are each less than 10 after the one
    before, and the server is up after the third, its counter back
    at 1. *)
Lemma three_close_failures_stay_up :
  getServer (Sample.fresh 3 10) Sample.srv0 = Some (Sample.fresh_server 3 10) /\
  9 - 0 < 10 /\ 18 - 9 < 10 /\
  exists s',
    after_calls (Sample.fresh 3 10)
                (CallSetOffline Sample.srv0 <$> [0; 9; 18]) Sample.srv0
      = Some s' /\
    isDown s' = false /\ failCounter s' = 1.
Proof.
  split; [reflexivity |]. split; [lia |]. split; [lia |].
  eexists. split; [reflexivity |]. split; reflexivity.
Qed.

(** C8 fails as stated: the call that puts a primary server with
    [MaxFails = 1] down raises the down event with the event type and
    the server; the error the caller saw is not among the arguments. *)
Lemma down_event_without_error :
  exists lb' s',
    SetOffline Sample.srv0 5 (Sample.fresh 1 10)
      = Some (lb', [Lock; Unlock;
                    RaiseEvent [ArgEvent ServerDownEvent;
                                ArgServer Sample.srv0]]) /\
    getServer lb' Sample.srv0 = Some s' /\
    isDown s' = true /\
    ~ In (ArgError Sample.timeout_error)
         [ArgEvent ServerDownEvent; ArgServer Sample.srv0].
Proof.
  eexists _, _. split; [reflexivity |]. split; [reflexivity |].
  split; [reflexivity |].
  intros [H | [H | []]]; discriminate.
Qed.

(** [SetOnline] on the down server of [Sample.one_down]. *)
Lemma SetOnline_resets_and_restores_witness :
  getServer (Sample.one_down 2 10) Sample.srv0 = Some (Sample.down_server 2 10) /\
  IsBackup (opts (Sample.down_server 2 10)) = false /\
  1 <= MaxFails (opts (Sample.down_server 2 10)) /\
  exists lb' tr s',
    SetOnline Sample.srv0 (Sample.one_down 2 10) = Some (lb', tr) /\
    getServer lb' Sample.srv0 = Some s' /\
    failCounter s' = 0 /\
    isDown s' = false /\
    tr = [Lock; Unlock;
          RaiseEvent [ArgEvent ServerUpEvent; ArgServer Sample.srv0]].
Proof.
  split; [reflexivity |]. split; [reflexivity |]. split; [simpl; lia |].
  destruct (SetOnline_resets_and_restores string (Sample.one_down 2 10)
              Sample.srv0 (Sample.down_server 2 10))
    as (lb' & tr & s' & Hcall & Hget & Hcnt & _ & Hdown & _);
    [reflexivity | reflexivity | simpl; lia |].
  destruct Hdown as (_ & Hup & _ & _ & Htr); [reflexivity |].
  exists lb', tr, s'. repeat split; assumption.
Defined.


(** The health invariant on a new server and across a failure. *)
Lemma health_inv_initial_and_preserved_witness :
  0 <= MaxFails (Sample.primary 3 10) /\
  health_inv (Sample.fresh_server 3 10) /\
  getServer (Sample.fresh 3 10) Sample.srv0 = Some (Sample.fresh_server 3 10) /\
  threshold_typed (Sample.fresh_server 3 10) /\
  exists lb' tr,
    call (CallSetOffline Sample.srv0 5) (Sample.fresh 3 10) = Some (lb', tr) /\
    forall srv' s', getServer lb' srv' = Some s' -> health_inv s'.
Proof.
  destruct (health_inv_initial_and_preserved string) as [Hinit Hstep].
  assert (H0 : 0 <= MaxFails (Sample.primary 3 10)) by (simpl; lia).
  assert (Ht : threshold_typed (Sample.fresh_server 3 10))
    by (apply is_int_bounded; simpl; lia).
  split; [exact H0 |].
  split; [exact (Hinit (Sample.primary 3 10) 0 "http://a"%string H0) |].
  split; [reflexivity |]. split; [exact Ht |].
  apply (Hstep (Sample.fresh 3 10) (CallSetOffline Sample.srv0 5)
               (Sample.fresh_server 3 10)); [reflexivity | exact Ht |].
  intros [[|] [| i]] s' Hs; simpl in Hs; try discriminate.
  injection Hs as <-.
  exact (Hinit (Sample.primary 3 10) 0 "http://a"%string H0).
Defined.

(** The count across the return of a down server. *)
Lemma count_inv_preserved_witness :
  getServer (Sample.one_down 2 10) (call_target (CallSetOnline Sample.srv0))
    = Some (Sample.down_server 2 10) /\
  groups_wf (Sample.one_down 2 10) /\
  count_inv (Sample.one_down 2 10) /\
  exists lb' tr,
    call (CallSetOnline Sample.srv0) (Sample.one_down 2 10) = Some (lb', tr) /\
    count_inv lb' /\
    primaryOnlineCount lb' = 2.
Proof.
  assert (Hwf : groups_wf (Sample.one_down 2 10)).
  { repeat split; simpl; repeat constructor.
    destruct int_bounds as [_ ->]. lia. }
  split; [reflexivity |]. split; [exact Hwf |]. split; [reflexivity |].
  destruct (count_inv_preserved string (Sample.one_down 2 10)
              (CallSetOnline Sample.srv0) (Sample.down_server 2 10))
    as (lb' & tr & s' & Hcall & Hget & _ & Hinv & Hdelta);
    [reflexivity | exact Hwf | reflexivity |].
  exists lb', tr. split; [exact Hcall |]. split; [exact Hinv |].
  rewrite Hdelta. simpl in Hcall. injection Hcall as <- _.
  simpl in Hget. injection Hget as <-. reflexivity.
Defined.

(** Failures on a server without health tracking. *)
Lemma untracked_server_is_never_touched_witness :
  getServer (Sample.failed_once 3 10) Sample.srv1
    = Some (Sample.second_server 0 10) /\
  (MaxFails (opts (Sample.second_server 0 10)) = 0 \/
   IsBackup (opts (Sample.second_server 0 10)) = true) /\
  run (CallSetOffline Sample.srv1 <$> [1; 2; 3; 4]) (Sample.failed_once 3 10)
    = Some (Sample.failed_once 3 10, []).
Proof.
  split; [reflexivity |]. split; [left; reflexivity |].
  destruct (untracked_server_is_never_touched string (Sample.failed_once 3 10)
              Sample.srv1 (Sample.second_server 0 10))
    as (_ & _ & Hrun & _); [reflexivity | left; reflexivity |].
  apply Hrun. repeat constructor.
Defined.

(** Calls on a primary and on a backup server of [Sample.failed_once]. *)
Lemma configuration_is_immutable_witness :
  Forall (call_valid (Sample.failed_once 2 10))
         [CallSetOffline Sample.srv0 5; CallSetOnline Sample.srv0;
          CallSetOffline Sample.bak0 7] /\
  exists lb' tr,
    run [CallSetOffline Sample.srv0 5; CallSetOnline Sample.srv0;
         CallSetOffline Sample.bak0 7] (Sample.failed_once 2 10)
      = Some (lb', tr) /\
    same_config (Sample.failed_once 2 10) lb' /\
    exists s', getServer lb' Sample.srv0 = Some s' /\
               UserData s' = "http://a"%string.
Proof.
  assert (Hvalid : Forall (call_valid (Sample.failed_once 2 10))
                     [CallSetOffline Sample.srv0 5; CallSetOnline Sample.srv0;
                      CallSetOffline Sample.bak0 7]).
  { repeat constructor; eexists; reflexivity. }
  split; [exact Hvalid |].
  destruct (configuration_is_immutable string (Sample.failed_once 2 10) _ Hvalid)
    as (lb' & tr & Hrun & Hsame & Hframe & _).
  exists lb', tr. split; [exact Hrun |]. split; [exact Hsame |].
  destruct (Hframe Sample.srv0 (Sample.failed_server 2 10))
    as (s' & Hget & _ & _ & _ & Hud); [reflexivity |].
  exists s'. split; [exact Hget | exact Hud].
Defined.

(** Failures after the deadline 10 of the window of [Sample.failed_once]. *)
Lemma expired_window_never_reaches_down_witness :
  getServer (Sample.failed_once 3 10) Sample.srv0
    = Some (Sample.failed_server 3 10) /\
  IsBackup (opts (Sample.failed_server 3 10)) = false /\
  2 <= MaxFails (opts (Sample.failed_server 3 10)) /\
  threshold_typed (Sample.failed_server 3 10) /\
  isDown (Sample.failed_server 3 10) = false /\
  1 <= failCounter (Sample.failed_server 3 10) /\
  Forall (fun now => failTimestamp (Sample.failed_server 3 10) < now)
         [11; 12; 30] /\
  exists lb' tr s',
    run (CallSetOffline Sample.srv0 <$> [11; 12; 30]) (Sample.failed_once 3 10)
      = Some (lb', tr) /\
    getServer lb' Sample.srv0 = Some s' /\
    isDown s' = false /\ failTimestamp s' = 10 /\ failCounter s' = 1.
Proof.
  assert (Ht : threshold_typed (Sample.failed_server 3 10))
    by (apply is_int_bounded; simpl; lia).
  assert (Hall : Forall (fun now => failTimestamp (Sample.failed_server 3 10) < now)
                        [11; 12; 30])
    by (repeat constructor; simpl; lia).
  split; [reflexivity |]. split; [reflexivity |]. split; [simpl; lia |].
  split; [exact Ht |]. split; [reflexivity |]. split; [simpl; lia |].
  split; [exact Hall |].
  destruct (expired_window_never_reaches_down string (Sample.failed_once 3 10)
              Sample.srv0 (Sample.failed_server 3 10) [11; 12; 30])
    as (lb' & tr & s' & Hrun & Hget & Hup & Hts & _ & Hc);
    [reflexivity | reflexivity | simpl; lia | exact Ht | reflexivity
     | simpl; lia | exact Hall |].
  exists lb', tr, s'. repeat split; try assumption.
  apply Hc; [simpl; lia | discriminate].
Defined.

(** Three failures on the fresh server of [Sample.fresh], with
    [MaxFails = 3] and [FailTimeout = 10]: at 0, 4 and 10, and at 0, 11
    and 22. *)
Lemma three_failures_and_the_window_witness :
  getServer (Sample.fresh 3 10) Sample.srv0 = Some (Sample.fresh_server 3 10) /\
  IsBackup (opts (Sample.fresh_server 3 10)) = false /\
  MaxFails (opts (Sample.fresh_server 3 10)) = 3 /\
  FailTimeout (opts (Sample.fresh_server 3 10)) = 10 /\
  isDown (Sample.fresh_server 3 10) = false /\
  failCounter (Sample.fresh_server 3 10) = 0 /\
  (4 <= 0 + 10 /\ 10 <= 0 + 10 /\
   exists s',
     after_calls (Sample.fresh 3 10)
                 (CallSetOffline Sample.srv0 <$> [0; 4; 10]) Sample.srv0
       = Some s' /\
     isDown s' = true) /\
  (0 <= 10 /\ 11 - 0 > 10 /\ 22 - 11 > 10 /\
   exists s',
     after_calls (Sample.fresh 3 10)
                 (CallSetOffline Sample.srv0 <$> [0; 11; 22]) Sample.srv0
       = Some s' /\
     isDown s' = false /\ failCounter s' = 1).
Proof.
  destruct (three_failures_and_the_window string (Sample.fresh 3 10)
              Sample.srv0 (Sample.fresh_server 3 10) 10)
    as [Hclose Hapart]; try reflexivity.
  repeat (split; [reflexivity |]).
  split.
  - split; [lia |]. split; [lia |].
    destruct (Hclose 0 4 10) as (s' & Hs' & Hd & _); [lia | lia |].
    exists s'. split; assumption.
  - split; [lia |]. split; [lia |]. split; [lia |].
    pose proof (Hapart 0 11 22) as H.
    assert (H' : Forall (fun nows => exists s',
                   after_calls (Sample.fresh 3 10)
                     (CallSetOffline Sample.srv0 <$> nows) Sample.srv0 = Some s' /\
                   isDown s' = false /\ failCounter s' = 1)
                 [[0]; [0; 11]; [0; 11; 22]]) by (apply H; lia).
    inversion H' as [| ? ? _ H2]. inversion H2 as [| ? ? _ H3].
    inversion H3 as [| ? ? Hlast _]. exact Hlast.
Defined.

(** The call that puts the server of [Sample.fresh] with [MaxFails = 1]
    down. *)
Lemma down_event_has_type_and_server_only_witness :
  getServer (Sample.fresh 1 10) Sample.srv0 = Some (Sample.fresh_server 1 10) /\
  exists lb' tr,
    SetOffline Sample.srv0 5 (Sample.fresh 1 10) = Some (lb', tr) /\
    events tr = [[ArgEvent ServerDownEvent; ArgServer Sample.srv0]] /\
    forall args, In args (events tr) -> ~ In (ArgError Sample.timeout_error) args.
Proof.
  split; [reflexivity |].
  destruct (down_event_has_type_and_server_only string (Sample.fresh 1 10)
              Sample.srv0 5 (Sample.fresh_server 1 10))
    as (lb' & tr & s' & Hcall & Hget & Hdown); [reflexivity |].
  exists lb', tr. split; [exact Hcall |].
  destruct Hdown as (_ & Hev & Hno).
  - reflexivity.
  - simpl in Hcall. injection Hcall as <- _.
    simpl in Hget. injection Hget as <-. reflexivity.
  - split; [exact Hev |]. intros args Hin. apply Hno. exact Hin.
Defined.

(** ** Further properties on sample balancers *)

(** A failure on the first primary of [Sample.failed_once] leaves the
    second primary and the backup server as they were. *)
Lemma call_touches_only_its_server_witness :
  getServer (Sample.failed_once 2 10) (call_target (CallSetOffline Sample.srv0 5))
    = Some (Sample.failed_server 2 10) /\
  exists lb' tr,
    call (CallSetOffline Sample.srv0 5) (Sample.failed_once 2 10)
      = Some (lb', tr) /\
    getServer lb' Sample.srv1 = Some (Sample.second_server 0 10) /\
    getServer lb' Sample.bak0 = Some (Sample.backup_server 2 10).
Proof.
  split; [reflexivity |].
  destruct (call_touches_only_its_server string (Sample.failed_once 2 10)
              (CallSetOffline Sample.srv0 5) (Sample.failed_server 2 10))
    as (lb' & tr & s' & Hcall & _ & _ & Hother & _); [reflexivity |].
  exists lb', tr. split; [exact Hcall |].
  split; (rewrite Hother; [reflexivity | discriminate]).
Defined.

Lemma events_are_raised_outside_the_lock_witness :
  Forall (call_valid (Sample.failed_once 2 10))
         [CallSetOffline Sample.srv0 5; CallSetOnline Sample.srv0;
          CallSetOffline Sample.bak0 7] /\
  exists lb' tr,
    run [CallSetOffline Sample.srv0 5; CallSetOnline Sample.srv0;
         CallSetOffline Sample.bak0 7] (Sample.failed_once 2 10)
      = Some (lb', tr) /\
    lock_safe false tr = true.
Proof.
  assert (Hvalid : Forall (call_valid (Sample.failed_once 2 10))
                     [CallSetOffline Sample.srv0 5; CallSetOnline Sample.srv0;
                      CallSetOffline Sample.bak0 7])
    by (repeat constructor; eexists; reflexivity).
  split; [exact Hvalid |].
  exact (events_are_raised_outside_the_lock string _ _ Hvalid).
Defined.

Lemma events_alternate_with_the_down_flag_witness :
  Forall (call_valid (Sample.failed_once 2 10))
         [CallSetOffline Sample.srv0 5; CallSetOffline Sample.srv0 6;
          CallSetOnline Sample.srv0; CallSetOnline Sample.srv0] /\
  getServer (Sample.failed_once 2 10) Sample.srv0
    = Some (Sample.failed_server 2 10) /\
  exists lb' tr s',
    run [CallSetOffline Sample.srv0 5; CallSetOffline Sample.srv0 6;
         CallSetOnline Sample.srv0; CallSetOnline Sample.srv0]
        (Sample.failed_once 2 10) = Some (lb', tr) /\
    getServer lb' Sample.srv0 = Some s' /\
    alternating (isDown (Sample.failed_server 2 10))
                (events_for Sample.srv0 tr) = Some (isDown s').
Proof.
  assert (Hvalid : Forall (call_valid (Sample.failed_once 2 10))
                     [CallSetOffline Sample.srv0 5; CallSetOffline Sample.srv0 6;
                      CallSetOnline Sample.srv0; CallSetOnline Sample.srv0])
    by (repeat constructor; eexists; reflexivity).
  split; [exact Hvalid |]. split; [reflexivity |].
  exact (events_alternate_with_the_down_flag string _ _ Sample.srv0 _ Hvalid
           eq_refl).
Defined.

(** Three failures at 0, 4 and 10 with [MaxFails = 3] and
    [FailTimeout = 10]: the third, at the deadline, puts the server
    down. *)
Lemma failures_in_one_window_count_up_witness :
  getServer (Sample.fresh 3 10) Sample.srv0 = Some (Sample.fresh_server 3 10) /\
  IsBackup (opts (Sample.fresh_server 3 10)) = false /\
  threshold_typed (Sample.fresh_server 3 10) /\
  isDown (Sample.fresh_server 3 10) = false /\
  failCounter (Sample.fresh_server 3 10) = 0 /\
  Forall (fun t => t <= 0 + FailTimeout (opts (Sample.fresh_server 3 10)))
         [4; 10] /\
  Z.of_nat (length [0; 4; 10]) <= MaxFails (opts (Sample.fresh_server 3 10)) /\
  exists lb' tr s',
    run (CallSetOffline Sample.srv0 <$> [0; 4; 10]) (Sample.fresh 3 10)
      = Some (lb', tr) /\
    getServer lb' Sample.srv0 = Some s' /\
    failCounter s' = 3 /\ isDown s' = true.
Proof.
  assert (Ht : threshold_typed (Sample.fresh_server 3 10))
    by (apply is_int_bounded; simpl; lia).
  assert (Hall : Forall (fun t => t <= 0 + FailTimeout
                                         (opts (Sample.fresh_server 3 10)))
                        [4; 10])
    by (repeat constructor; simpl; lia).
  assert (Hlen : Z.of_nat (length [0; 4; 10])
                 <= MaxFails (opts (Sample.fresh_server 3 10)))
    by (simpl; lia).
  repeat (split; [first [reflexivity | assumption] |]).
  destruct (failures_in_one_window_count_up string (Sample.fresh 3 10)
              Sample.srv0 (Sample.fresh_server 3 10) 0 [4; 10]
              eq_refl eq_refl Ht eq_refl eq_refl Hall Hlen)
    as (lb' & tr & s' & Hrun & Hg & Hc & Hd & _).
  exists lb', tr, s'. repeat split; assumption.
Defined.

(** Two failures far apart on a fresh server with [MaxFails = 3]. *)
Lemma too_few_failures_never_reach_down_witness :
  getServer (Sample.fresh 3 10) Sample.srv0 = Some (Sample.fresh_server 3 10) /\
  IsBackup (opts (Sample.fresh_server 3 10)) = false /\
  threshold_typed (Sample.fresh_server 3 10) /\
  isDown (Sample.fresh_server 3 10) = false /\
  0 <= failCounter (Sample.fresh_server 3 10) /\
  failCounter (Sample.fresh_server 3 10) + Z.of_nat (length [0; 500])
    < MaxFails (opts (Sample.fresh_server 3 10)) /\
  exists lb' tr s',
    run (CallSetOffline Sample.srv0 <$> [0; 500]) (Sample.fresh 3 10)
      = Some (lb', tr) /\
    getServer lb' Sample.srv0 = Some s' /\
    isDown s' = false /\ events tr = [].
Proof.
  assert (Ht : threshold_typed (Sample.fresh_server 3 10))
    by (apply is_int_bounded; simpl; lia).
  assert (Hc : 0 <= failCounter (Sample.fresh_server 3 10)) by (simpl; lia).
  assert (Hlen : failCounter (Sample.fresh_server 3 10)
                 + Z.of_nat (length [0; 500])
                 < MaxFails (opts (Sample.fresh_server 3 10)))
    by (simpl; lia).
  repeat (split; [first [reflexivity | assumption] |]).
  destruct (too_few_failures_never_reach_down string (Sample.fresh 3 10)
              Sample.srv0 (Sample.fresh_server 3 10) [0; 500]
              eq_refl eq_refl Ht eq_refl Hc Hlen)
    as (lb' & tr & s' & Hrun & Hg & Hd & _ & Hev).
  exists lb', tr, s'. repeat split; assumption.
Defined.

(** The second failure of [Sample.failed_once] with [MaxFails = 2], then
    a success. *)
Lemma failure_then_success_restores_the_count_witness :
  getServer (Sample.failed_once 2 10) Sample.srv0
    = Some (Sample.failed_server 2 10) /\
  IsBackup (opts (Sample.failed_server 2 10)) = false /\
  threshold_typed (Sample.failed_server 2 10) /\
  GoInt.is_int (primaryOnlineCount (Sample.failed_once 2 10)) /\
  isDown (Sample.failed_server 2 10) = false /\
  0 <= failCounter (Sample.failed_server 2 10) /\
  failCounter (Sample.failed_server 2 10) + 1
    = MaxFails (opts (Sample.failed_server 2 10)) /\
  (failCounter (Sample.failed_server 2 10) = 0 \/
   5 <= failTimestamp (Sample.failed_server 2 10)) /\
  exists lb1 tr1 lb2 tr2,
    SetOffline Sample.srv0 5 (Sample.failed_once 2 10) = Some (lb1, tr1) /\
    SetOnline Sample.srv0 lb1 = Some (lb2, tr2) /\
    primaryOnlineCount lb2 = 2.
Proof.
  assert (Ht : threshold_typed (Sample.failed_server 2 10))
    by (apply is_int_bounded; simpl; lia).
  assert (Hi : GoInt.is_int (primaryOnlineCount (Sample.failed_once 2 10)))
    by (apply is_int_bounded; simpl; lia).
  assert (Hc : 0 <= failCounter (Sample.failed_server 2 10)) by (simpl; lia).
  assert (Hw : failCounter (Sample.failed_server 2 10) = 0 \/
               5 <= failTimestamp (Sample.failed_server 2 10))
    by (right; simpl; lia).
  repeat (split; [first [reflexivity | assumption] |]).
  destruct (failure_then_success_restores_the_count string
              (Sample.failed_once 2 10) Sample.srv0 5
              (Sample.failed_server 2 10)
              eq_refl eq_refl Ht Hi eq_refl Hc eq_refl Hw)
    as (lb1 & tr1 & lb2 & tr2 & Hoff & Hon & _ & Hcount & _).
  exists lb1, tr1, lb2, tr2. repeat split; assumption.
Defined.

Lemma SetOnline_is_idempotent_witness :
  getServer (Sample.one_down 2 10) Sample.srv0 = Some (Sample.down_server 2 10) /\
  exists lb1 tr1 tr2,
    SetOnline Sample.srv0 (Sample.one_down 2 10) = Some (lb1, tr1) /\
    SetOnline Sample.srv0 lb1 = Some (lb1, tr2) /\
    events tr2 = [].
Proof.
  split; [reflexivity |].
  exact (SetOnline_is_idempotent string (Sample.one_down 2 10) Sample.srv0
           (Sample.down_server 2 10) eq_refl).
Defined.

(** A success and then a failure at 500 on the server of
    [Sample.failed_once], whose old window ended at 10. *)
Lemma success_then_failure_opens_a_window_witness :
  getServer (Sample.failed_once 3 10) Sample.srv0
    = Some (Sample.failed_server 3 10) /\
  IsBackup (opts (Sample.failed_server 3 10)) = false /\
  2 <= MaxFails (opts (Sample.failed_server 3 10)) /\
  exists lb' tr s',
    run [CallSetOnline Sample.srv0; CallSetOffline Sample.srv0 500]
        (Sample.failed_once 3 10) = Some (lb', tr) /\
    getServer lb' Sample.srv0 = Some s' /\
    failCounter s' = 1 /\ failTimestamp s' = 510.
Proof.
  assert (Hm : 2 <= MaxFails (opts (Sample.failed_server 3 10)))
    by (simpl; lia).
  repeat (split; [first [reflexivity | assumption] |]).
  destruct (success_then_failure_opens_a_window string
              (Sample.failed_once 3 10) Sample.srv0 500
              (Sample.failed_server 3 10) eq_refl eq_refl Hm)
    as (lb' & tr & s' & Hrun & Hg & _ & Hc & Hts).
  exists lb', tr, s'. repeat split; assumption.
Defined.

Lemma count_stays_exact_across_calls_witness :
  Forall (call_valid (Sample.one_down 2 10))
         [CallSetOnline Sample.srv0; CallSetOffline Sample.srv1 3;
          CallSetOffline Sample.srv1 4] /\
  groups_wf (Sample.one_down 2 10) /\
  count_inv (Sample.one_down 2 10) /\
  exists lb' tr,
    run [CallSetOnline Sample.srv0; CallSetOffline Sample.srv1 3;
         CallSetOffline Sample.srv1 4] (Sample.one_down 2 10)
      = Some (lb', tr) /\
    count_inv lb' /\
    0 <= primaryOnlineCount lb' <= 2.
Proof.
  assert (Hvalid : Forall (call_valid (Sample.one_down 2 10))
                     [CallSetOnline Sample.srv0; CallSetOffline Sample.srv1 3;
                      CallSetOffline Sample.srv1 4])
    by (repeat constructor; eexists; reflexivity).
  assert (Hwf : groups_wf (Sample.one_down 2 10)).
  { repeat split; simpl; repeat constructor.
    destruct int_bounds as [_ ->]. lia. }
  split; [exact Hvalid |]. split; [exact Hwf |]. split; [reflexivity |].
  destruct (count_stays_exact_across_calls string _ (Sample.one_down 2 10)
              Hvalid Hwf eq_refl)
    as (lb' & tr & Hrun & _ & Hinv & Hb).
  exists lb', tr. repeat split; try assumption; apply Hb.
Defined.

(** Failures on a primary server created with [MaxFails = -1]. *)
Lemma negative_threshold_never_goes_down_witness :
  getServer (Sample.fresh (-1) 10) Sample.srv0
    = Some (Sample.fresh_server (-1) 10) /\
  MaxFails (opts (Sample.fresh_server (-1) 10)) < 0 /\
  isDown (Sample.fresh_server (-1) 10) = false /\
  0 <= failCounter (Sample.fresh_server (-1) 10) /\
  Forall (fun c => call_target c = Sample.srv0)
         [CallSetOffline Sample.srv0 1; CallSetOffline Sample.srv0 2;
          CallSetOnline Sample.srv0; CallSetOffline Sample.srv0 3] /\
  exists lb' tr s',
    run [CallSetOffline Sample.srv0 1; CallSetOffline Sample.srv0 2;
         CallSetOnline Sample.srv0; CallSetOffline Sample.srv0 3]
        (Sample.fresh (-1) 10) = Some (lb', tr) /\
    getServer lb' Sample.srv0 = Some s' /\
    isDown s' = false /\ events tr = [].
Proof.
  assert (Hm : MaxFails (opts (Sample.fresh_server (-1) 10)) < 0)
    by (simpl; lia).
  assert (Hc : 0 <= failCounter (Sample.fresh_server (-1) 10)) by (simpl; lia).
  assert (Hall : Forall (fun c => call_target c = Sample.srv0)
                   [CallSetOffline Sample.srv0 1; CallSetOffline Sample.srv0 2;
                    CallSetOnline Sample.srv0; CallSetOffline Sample.srv0 3])
    by (repeat constructor).
  repeat (split; [first [reflexivity | assumption] |]).
  destruct (negative_threshold_never_goes_down string _ (Sample.fresh (-1) 10)
              Sample.srv0 (Sample.fresh_server (-1) 10)
              eq_refl Hm eq_refl Hc Hall)
    as (lb' & tr & s' & Hrun & Hg & Hd & Hev & _).
  exists lb', tr, s'. repeat split; assumption.
Defined.

(** ** Matching by derivatives is matching *)

Lemma lang_nil_nullable r s : lang r s -> s = [] -> nullable r = true.
Proof.
  induction 1 as [| | r1 r2 s1 s2 _ IH1 _ IH2 | r1 r2 t _ IH | r1 r2 t _ IH
                  | | r0 s1 s2 _ _ _ _]; intros Hs; simpl;
    try discriminate; try reflexivity.
  - apply app_eq_nil in Hs as [-> ->]. by rewrite IH1, IH2.
  - by rewrite IH.
  - rewrite IH by exact Hs. apply orb_true_r.
Qed.

Lemma nullable_lang r : nullable r = true -> lang r [].
Proof.
  induction r as [| | p | r1 IH1 r2 IH2 | r1 IH1 r2 IH2 | r IH]; simpl;
    intros H; try discriminate.
  - constructor.
  - apply andb_true_iff in H as [H1 H2].
    change (@nil ascii) with (@nil ascii ++ []). constructor; auto.
  - apply orb_true_iff in H as [H | H];
      [apply lang_Alt_l | apply lang_Alt_r]; auto.
  - constructor.
Qed.

Lemma deriv_lang_1 c r : forall s, lang (deriv c r) s -> lang r (c :: s).
Proof.
  induction r as [| | p | r1 IH1 r2 IH2 | r1 IH1 r2 IH2 | r IH]; simpl;
    intros s H.
  - inversion H.
  - inversion H.
  - destruct (p c) eqn:Hp; inversion H; subst. by constructor.
  - assert (Hcat : forall t, lang (Cat (deriv c r1) r2) t ->
                             lang (Cat r1 r2) (c :: t)).
    { intros t Ht. inversion Ht as [| | ? ? t1 t2 H1 H2 | | | |]; subst.
      change (c :: t1 ++ t2) with ((c :: t1) ++ t2). constructor; auto. }
    destruct (nullable r1) eqn:Hn; [| by apply Hcat].
    inversion H as [| | | ? ? ? Hl | ? ? ? Hr | |]; subst; [by apply Hcat |].
    change (c :: s) with ([] ++ c :: s).
    constructor; [by apply nullable_lang | by apply IH2].
  - inversion H; subst; [apply lang_Alt_l | apply lang_Alt_r]; auto.
  - inversion H as [| | ? ? t1 t2 H1 H2 | | | |]; subst.
    change (c :: t1 ++ t2) with ((c :: t1) ++ t2). constructor; auto.
Qed.

Lemma deriv_lang_2 r t : lang r t -> forall c s, t = c :: s -> lang (deriv c r) s.
Proof.
  induction 1 as [| p c' Hp | r1 r2 s1 s2 H1 IH1 H2 IH2 | r1 r2 u H IH
                  | r1 r2 u H IH | | r0 s1 s2 H1 IH1 H2 IH2];
    intros c s Ht; simpl.
  - discriminate.
  - injection Ht as -> <-. rewrite Hp. constructor.
  - destruct s1 as [| c1 s1]; simpl in Ht.
    + subst s2. rewrite (lang_nil_nullable _ _ H1 eq_refl).
      apply lang_Alt_r. by apply IH2.
    + injection Ht as -> <-.
      assert (Hc : lang (Cat (deriv c r1) r2) (s1 ++ s2))
        by (constructor; [by apply IH1 | exact H2]).
      destruct (nullable r1); [by apply lang_Alt_l | exact Hc].
  - apply lang_Alt_l. by apply IH.
  - apply lang_Alt_r. by apply IH.
  - discriminate.
  - destruct s1 as [| c1 s1]; simpl in Ht.
    + by apply IH2.
    + injection Ht as -> <-. constructor; [by apply IH1 | exact H2].
Qed.

Lemma full_match_lang s : forall r, full_match r s = true <-> lang r s.
Proof.
  induction s as [| c s IH]; intros r; simpl.
  - split; [apply nullable_lang | intros H; by eapply lang_nil_nullable].
  - rewrite IH. split; [apply deriv_lang_1 |].
    intros H. by eapply deriv_lang_2.
Qed.

(** *** The pieces of a pattern *)

Lemma lang_Cat_iff r1 r2 s :
  lang (Cat r1 r2) s <-> exists s1 s2, s = s1 ++ s2 /\ lang r1 s1 /\ lang r2 s2.
Proof.
  split.
  - intros H. inversion H; subst. eauto.
  - intros (s1 & s2 & -> & H1 & H2). by constructor.
Qed.

Lemma lang_Empty_iff s : lang Empty s <-> s = [].
Proof. split; [intros H; by inversion H | intros ->; constructor]. Qed.

Lemma lang_Class_iff p s : lang (Class p) s <-> exists c, s = [c] /\ p c = true.
Proof.
  split.
  - intros H. inversion H; subst. eauto.
  - intros (c & -> & Hp). by constructor.
Qed.

Lemma lang_opt_iff r s : lang (opt r) s <-> lang r s \/ s = [].
Proof.
  unfold opt. split.
  - intros H. inversion H as [| | | ? ? ? Hl | ? ? ? Hr | |]; subst;
      [by left | right; by apply lang_Empty_iff].
  - intros [H | ->]; [by apply lang_Alt_l | apply lang_Alt_r; constructor].
Qed.

Lemma lang_lit_iff w : forall s, lang (lit w) s <-> s = w.
Proof.
  induction w as [| c w IH]; intros s; simpl.
  - apply lang_Empty_iff.
  - rewrite lang_Cat_iff. split.
    + intros (s1 & s2 & -> & H1 & H2).
      apply lang_Class_iff in H1 as (c' & -> & Hc).
      apply Ascii.eqb_eq in Hc as <-. apply IH in H2 as ->. reflexivity.
    + intros ->. exists [c], w. split; [reflexivity |].
      split; [constructor; apply Ascii.eqb_refl | by apply IH].
Qed.

Lemma lang_Star_Class_1 r s :
  lang r s -> forall p, r = Star (Class p) -> Forall (fun c => p c = true) s.
Proof.
  induction 1 as [| q c0 Hq | q1 q2 t1 t2 _ _ _ _ | q1 q2 t _ _ | q1 q2 t _ _
                  | q0 | r0 s1 s2 H1 _ H2 IH2]; intros p Hr;
    try discriminate.
  - constructor.
  - injection Hr as ->. apply lang_Class_iff in H1 as (c & -> & Hp).
    constructor; [exact Hp | by apply IH2].
Qed.

Lemma lang_Star_Class_iff p s :
  lang (Star (Class p)) s <-> Forall (fun c => p c = true) s.
Proof.
  split; [intros H; by eapply lang_Star_Class_1 |].
  induction 1 as [| c s Hc _ IH]; [constructor |].
  change (c :: s) with ([c] ++ s). constructor; [by constructor | exact IH].
Qed.

Lemma lang_plus_Class_iff p s :
  lang (plus (Class p)) s <-> s <> [] /\ Forall (fun c => p c = true) s.
Proof.
  unfold plus. rewrite lang_Cat_iff. split.
  - intros (s1 & s2 & -> & H1 & H2).
    apply lang_Class_iff in H1 as (c & -> & Hp).
    apply lang_Star_Class_iff in H2. split; [discriminate | by constructor].
  - intros [Hne Hall]. destruct Hall as [| c s Hc Hs]; [contradiction |].
    exists [c], s. split; [reflexivity |].
    split; [by constructor | by apply lang_Star_Class_iff].
Qed.

Lemma lang_Star_any s : lang (Star any) s.
Proof. apply lang_Star_Class_iff, Forall_forall. reflexivity. Qed.

(** A search succeeds exactly when a suffix of the text is a string of
    the pattern. *)
Lemma MatchString_iff r s :
  MatchString r s = true <-> exists pre t, s = pre ++ t /\ lang r t.
Proof.
  unfold MatchString. rewrite full_match_lang, lang_Cat_iff. split.
  - intros (pre & t & -> & _ & Ht). eauto.
  - intros (pre & t & -> & Ht). exists pre, t.
    split; [reflexivity |]. split; [apply lang_Star_any | exact Ht].
Qed.

Lemma HasSuffix_slash s :
  HasSuffix s (str "/") = true <-> exists s', s = s' ++ str "/".
Proof.
  unfold HasSuffix. change (str "/") with ["/"%char]. simpl length. split.
  - intros H. apply andb_true_iff in H as [_ H].
    apply bool_decide_eq_true in H.
    exists (take (length s - 1) s). rewrite <- H. by rewrite take_drop.
  - intros (s' & ->). rewrite length_app. simpl length.
    apply andb_true_iff. split; [apply Nat.leb_le; lia |].
    apply bool_decide_eq_true.
    replace (length s' + 1 - 1)%nat with (length s') by lia.
    by rewrite drop_app_length.
Qed.

(** ** The base URLs [AddSource] accepts *)

(** The check of [AddSource] passes exactly for the texts that end in a
    scheme [http] or [https], [://], a non-empty host without [:], [/],
    [?] and [#], optionally [:] and digits, and optionally one [/]. *)
Lemma MatchString_baseURL_pattern_iff (s : list ascii) :
  MatchString httpclient.baseURL_pattern s = true <-> httpclient.is_base_url s.
Proof.
  rewrite MatchString_iff. unfold httpclient.is_base_url. split.
  - intros (pre & t & -> & Ht). unfold httpclient.baseURL_pattern in Ht.
    apply lang_Cat_iff in Ht as (a & t1 & -> & Ha & Ht).
    apply lang_lit_iff in Ha as ->.
    apply lang_Cat_iff in Ht as (b & t2 & -> & Hb & Ht).
    apply lang_opt_iff in Hb.
    apply lang_Cat_iff in Ht as (c & t3 & -> & Hc & Ht).
    apply lang_lit_iff in Hc as ->.
    apply lang_Cat_iff in Ht as (h & t4 & -> & Hh & Ht).
    apply lang_plus_Class_iff in Hh as [Hne Hall].
    apply lang_Cat_iff in Ht as (port & sl & -> & Hp & Hs).
    apply lang_opt_iff in Hp. apply lang_opt_iff in Hs.
    exists pre, (str "http" ++ b), h, port, sl.
    split; [by rewrite <- (app_assoc (str "http") b) |].
    split.
    { destruct Hb as [Hb | ->];
        [apply lang_lit_iff in Hb as ->; by right | by left]. }
    split; [exact Hne |]. split; [exact Hall |]. split.
    { destruct Hp as [Hp | ->]; [right | by left].
      apply lang_Cat_iff in Hp as (x & d & -> & Hx & Hd).
      apply lang_lit_iff in Hx as ->.
      apply lang_plus_Class_iff in Hd as [Hd1 Hd2]. by exists d. }
    destruct Hs as [Hs | ->]; [right; by apply lang_lit_iff in Hs | by left].
  - intros (pre & scheme & h & port & sl & -> & Hsch & Hne & Hall & Hp & Hs).
    exists pre, (scheme ++ str "://" ++ h ++ port ++ sl).
    split; [reflexivity |].
    assert (Hrest : lang (Cat (lit (str "://"))
                      (Cat (plus (Class httpclient.host_char))
                         (Cat (opt (Cat (lit (str ":"))
                                        (plus (Class httpclient.digit))))
                              (opt (lit (str "/"))))))
                      (str "://" ++ h ++ port ++ sl)).
    { constructor; [by apply lang_lit_iff |].
      constructor; [by apply lang_plus_Class_iff |].
      constructor.
      - apply lang_opt_iff. destruct Hp as [-> | (d & -> & Hd1 & Hd2)];
          [by right | left].
        constructor; [by apply lang_lit_iff | by apply lang_plus_Class_iff].
      - apply lang_opt_iff. destruct Hs as [-> | ->];
          [by right | left; by apply lang_lit_iff]. }
    unfold httpclient.baseURL_pattern.
    destruct Hsch as [-> | ->].
    + constructor; [by apply lang_lit_iff |].
      change (str "://" ++ h ++ port ++ sl)
        with ([] ++ str "://" ++ h ++ port ++ sl).
      constructor; [apply lang_opt_iff; by right | exact Hrest].
    + change (str "https" ++ str "://" ++ h ++ port ++ sl)
        with (str "http" ++ str "s" ++ str "://" ++ h ++ port ++ sl).
      constructor; [by apply lang_lit_iff |].
      constructor; [apply lang_opt_iff; left; by apply lang_lit_iff | exact Hrest].
Qed.


Lemma host_char_not_slash c : httpclient.host_char c = true -> c <> "/"%char.
Proof. intros H ->. discriminate. Qed.

Lemma digit_not_slash c : httpclient.digit c = true -> c <> "/"%char.
Proof. intros H ->. discriminate. Qed.

Lemma Forall_last_not_slash (P : ascii -> bool) (l : list ascii) :
  (forall c, P c = true -> c <> "/"%char) ->
  l <> [] -> Forall (fun c => P c = true) l ->
  exists l' x, l = l' ++ [x] /\ x <> "/"%char.
Proof.
  intros HP Hne Hall.
  destruct (last l) as [x |] eqn:Hl.
  - apply last_Some in Hl as (l' & ->). exists l', x. split; [reflexivity |].
    apply HP. apply Forall_app in Hall as [_ Hx]. by inversion Hx.
  - apply last_None in Hl. contradiction.
Qed.

(** What [AddSource] keeps of an accepted text: the text without its one
    trailing slash, which does not end in a slash. *)
Lemma stored_base_url (url : list ascii) :
  httpclient.is_base_url url ->
  exists body,
    (if HasSuffix url (str "/") then take (length url - 1) url else url) = body /\
    (url = body \/ url = body ++ str "/") /\
    last body <> Some "/"%char /\ body <> [].
Proof.
  intros (pre & scheme & h & port & sl & -> & _ & Hne & Hall & Hp & Hs).
  assert (Hbody : exists l' x, pre ++ scheme ++ str "://" ++ h ++ port
                               = l' ++ [x] /\ x <> "/"%char).
  { destruct Hp as [-> | (d & -> & Hd1 & Hd2)].
    - destruct (Forall_last_not_slash httpclient.host_char h
                  host_char_not_slash Hne Hall) as (l' & x & -> & Hx).
      exists (pre ++ scheme ++ str "://" ++ l'), x.
      split; [| exact Hx]. rewrite app_nil_r. by rewrite <- !app_assoc.
    - destruct (Forall_last_not_slash httpclient.digit d
                  digit_not_slash Hd1 Hd2) as (l' & x & -> & Hx).
      exists (pre ++ scheme ++ str "://" ++ h ++ str ":" ++ l'), x.
      split; [| exact Hx]. by rewrite <- !app_assoc. }
  destruct Hbody as (l' & x & Hbody & Hx).
  assert (Hurl : pre ++ scheme ++ str "://" ++ h ++ port ++ sl
                 = (l' ++ [x]) ++ sl)
    by (rewrite <- Hbody; by rewrite <- !app_assoc).
  rewrite Hurl. exists (l' ++ [x]).
  assert (Hlast : last (l' ++ [x]) <> Some "/"%char)
    by (rewrite last_snoc; congruence).
  assert (Hnil : l' ++ [x] <> []) by (destruct l'; discriminate).
  destruct Hs as [-> | ->].
  - rewrite app_nil_r.
    destruct (HasSuffix (l' ++ [x]) (str "/")) eqn:Hsuf.
    + apply HasSuffix_slash in Hsuf as (s' & Hs').
      change (str "/") with ["/"%char] in Hs'.
      apply app_inj_tail in Hs' as [_ ->]. contradiction.
    + repeat split; [by left | exact Hlast | exact Hnil].
  - assert (Hsuf : HasSuffix ((l' ++ [x]) ++ str "/") (str "/") = true)
      by (apply HasSuffix_slash; by eexists).
    rewrite Hsuf. split.
    + apply take_app_length'. rewrite length_app.
      change (length (str "/")) with 1%nat. lia.
    + repeat split; [by right | exact Hlast | exact Hnil].
Qed.

Lemma copy_headers_default (h : option (gmap (list ascii) (list ascii))) :
  httpclient.copy_headers h = default ∅ h.
Proof.
  destruct h as [h |]; [| reflexivity]. simpl.
  apply (map_fold_weak_ind (fun r m => r = m)); [reflexivity |].
  intros k v m r _ ->. reflexivity.
Qed.

(** ** [AddSource], [SourcesCount] and [SourceState] *)

Section ClientProperties.

Variables B Transport Handler : Type.
Variable lbAdd : ServerOptions -> httpclient.Source -> B -> B * option error.
Variable Source_BaseURL : httpclient.Source -> list ascii.
Variable Source_IsBackup : httpclient.Source -> bool.
Variable Source_Err : httpclient.Source -> option error.

Implicit Types (c : httpclient.HttpClient B Transport Handler).
Implicit Types (url : list ascii) (o : httpclient.SourceOptions).

(** The source [AddSource] builds for an accepted text. *)
Lemma AddSource_unfold c url o :
  httpclient.AddSource lbAdd c url o =
    if negb (MatchString httpclient.baseURL_pattern url) then
      (c, Some (errorString "missing base url"))
    else
      let src :=
        {| httpclient.id := GoInt.add (Z.of_nat (length (httpclient.sources c))) 1;
           httpclient.baseURL :=
             if HasSuffix url (str "/") then take (length url - 1) url else url;
           httpclient.headers := httpclient.copy_headers (httpclient.Headers o);
           httpclient.isBackup := IsBackup (httpclient.embeddedServerOptions o);
           httpclient.lastError := None |} in
      match (lbAdd (httpclient.embeddedServerOptions o) src (httpclient.lb c)).2 with
      | Some e =>
          (httpclient.set_lb
             (lbAdd (httpclient.embeddedServerOptions o) src (httpclient.lb c)).1 c,
           Some e)
      | None =>
          (httpclient.set_lb
             (lbAdd (httpclient.embeddedServerOptions o) src (httpclient.lb c)).1
             (httpclient.set_sources (httpclient.sources c ++ [src]) c),
           None)
      end.
Proof.
  unfold httpclient.AddSource.
  destruct (negb (MatchString httpclient.baseURL_pattern url)); [reflexivity |].
  cbn zeta. cbn [httpclient.lb httpclient.set_sources].
  destruct (lbAdd _ _ _) as [b [e |]]; cbn [fst snd]; [| reflexivity].
  unfold httpclient.set_sources, httpclient.set_lb.
  cbn [httpclient.lb httpclient.transport httpclient.eventHandler
       httpclient.sources].
  rewrite length_app. cbn [length].
  rewrite take_app_length' by lia. reflexivity.
Qed.

(** X12. A text that is no base URL is refused with the error
    [missing base url]: the client is returned as it was, and the
    balancer's [Add] is not called. *)
Theorem AddSource_rejects_what_is_no_base_url c url o :
  ~ httpclient.is_base_url url ->
  httpclient.AddSource lbAdd c url o
    = (c, Some (errorString "missing base url")).
Proof.
  intros Hno. rewrite AddSource_unfold.
  destruct (MatchString httpclient.baseURL_pattern url) eqn:Hm; [| reflexivity].
  exfalso. apply Hno. by apply MatchString_baseURL_pattern_iff.
Qed.

(** X13. A base URL gets past the check, and what [AddSource] returns is what
    [Add] returns for the new source: its error, and the balancer it
    leaves. The new source has the next identifier, the text without its
    trailing slash as its base URL (which never ends in a slash), a copy
    of the given headers (none for a nil map), the backup flag of the
    options and no last error; it is appended when [Add] succeeds and
    the list of sources is as before when [Add] fails. *)
Theorem AddSource_hands_base_urls_to_Add c url o :
  httpclient.is_base_url url ->
  exists src c',
    httpclient.id src = GoInt.add (Z.of_nat (length (httpclient.sources c))) 1 /\
    (url = httpclient.baseURL src \/ url = httpclient.baseURL src ++ str "/") /\
    last (httpclient.baseURL src) <> Some "/"%char /\
    httpclient.headers src = default ∅ (httpclient.Headers o) /\
    httpclient.isBackup src = IsBackup (httpclient.embeddedServerOptions o) /\
    httpclient.lastError src = None /\
    httpclient.AddSource lbAdd c url o
      = (c', (lbAdd (httpclient.embeddedServerOptions o) src (httpclient.lb c)).2) /\
    httpclient.lb c'
      = (lbAdd (httpclient.embeddedServerOptions o) src (httpclient.lb c)).1 /\
    httpclient.sources c'
      = match (lbAdd (httpclient.embeddedServerOptions o) src (httpclient.lb c)).2
        with
        | Some _ => httpclient.sources c
        | None => httpclient.sources c ++ [src]
        end.
Proof.
  intros Hurl. rewrite AddSource_unfold.
  rewrite (proj2 (MatchString_baseURL_pattern_iff url) Hurl). cbn [negb].
  destruct (stored_base_url url Hurl) as (body & Hbody & Hrel & Hlast & _).
  rewrite Hbody. cbn zeta.
  set (src := {| httpclient.id := _ |}). exists src.
  destruct (lbAdd (httpclient.embeddedServerOptions o) src (httpclient.lb c))
    as [b [e |]]; cbn [fst snd];
    eexists; (repeat split; try reflexivity; try assumption);
    apply copy_headers_default.
Qed.

(** X14. Whatever error [AddSource] returns, the sources, the transport and
    the event handler of the client are as before the call: the source
    appended before the call of [Add] is taken off again. *)
Theorem AddSource_error_keeps_the_sources c url o c' (e : error) :
  httpclient.AddSource lbAdd c url o = (c', Some e) ->
  httpclient.sources c' = httpclient.sources c /\
  httpclient.transport c' = httpclient.transport c /\
  httpclient.eventHandler c' = httpclient.eventHandler c /\
  httpclient.SourcesCount c' = httpclient.SourcesCount c.
Proof.
  rewrite AddSource_unfold. unfold httpclient.SourcesCount.
  destruct (negb (MatchString httpclient.baseURL_pattern url)).
  - intros H. injection H as <- _. repeat split.
  - cbn zeta. destruct (lbAdd _ _ _) as [b [e' |]]; cbn [fst snd]; intros H;
      [| discriminate].
    injection H as <- _. repeat split.
Qed.

(** What a call does to the list of sources. *)
Lemma AddSource_sources c url o :
  (exists src,
     httpclient.AddSource lbAdd c url o
       = ((httpclient.AddSource lbAdd c url o).1, None) /\
     httpclient.sources (httpclient.AddSource lbAdd c url o).1
       = httpclient.sources c ++ [src] /\
     httpclient.id src
       = GoInt.add (Z.of_nat (length (httpclient.sources c))) 1) \/
  (exists e,
     httpclient.AddSource lbAdd c url o
       = ((httpclient.AddSource lbAdd c url o).1, Some e) /\
     httpclient.sources (httpclient.AddSource lbAdd c url o).1
       = httpclient.sources c).
Proof.
  rewrite AddSource_unfold.
  destruct (negb (MatchString httpclient.baseURL_pattern url)).
  - right. eexists. split; reflexivity.
  - cbn zeta. destruct (lbAdd _ _ _) as [b [e |]]; cbn [fst snd].
    + right. eexists. split; reflexivity.
    + left. eexists. repeat split.
Qed.

Lemma ids_in_order_snoc (l : list httpclient.Source) (src : httpclient.Source) :
  httpclient.ids_in_order l ->
  httpclient.id src = Z.of_nat (length l) + 1 ->
  httpclient.ids_in_order (l ++ [src]).
Proof.
  intros Hl Hid i x Hx. apply lookup_snoc_Some in Hx as [[_ Hx] | [-> <-]].
  - by apply Hl.
  - exact Hid.
Qed.

(** X15. Across any number of [AddSource] calls, the sources already there
    stay where they are, one source is appended for each call that
    returns no error, and the identifiers of the sources keep counting
    up from 1 with their position. *)
Theorem source_ids_count_up (reqs : list (list ascii * httpclient.SourceOptions)) :
  forall c c' (es : list (option error)),
  httpclient.ids_in_order (httpclient.sources c) ->
  Z.of_nat (length (httpclient.sources c) + length reqs) <= GoInt.int_max ->
  httpclient.AddSources lbAdd c reqs = (c', es) ->
  httpclient.sources c `prefix_of` httpclient.sources c' /\
  httpclient.ids_in_order (httpclient.sources c') /\
  length es = length reqs /\
  length (httpclient.sources c')
    = (length (httpclient.sources c) + httpclient.added es)%nat.
Proof.
  induction reqs as [| [url o] reqs IH]; intros c c' es Hids Hlen Hrun.
  - injection Hrun as <- <-. repeat split; [done | exact Hids |].
    unfold httpclient.added. simpl. lia.
  - cbn [httpclient.AddSources] in Hrun.
    destruct (httpclient.AddSource lbAdd c url o) as [c1 e1] eqn:H1.
    destruct (httpclient.AddSources lbAdd c1 reqs) as [c2 es2] eqn:H2.
    injection Hrun as <- <-.
    cbn [length] in Hlen.
    assert (Hstep : httpclient.sources c `prefix_of` httpclient.sources c1 /\
                    httpclient.ids_in_order (httpclient.sources c1) /\
                    length (httpclient.sources c1)
                      = (length (httpclient.sources c)
                         + httpclient.added [e1])%nat).
    { destruct (AddSource_sources c url o) as [(src & He & Hs & Hid)
                                               | (e & He & Hs)];
        rewrite H1 in He, Hs; cbn [fst] in He, Hs;
        injection He as ->; rewrite Hs.
      - split; [by apply prefix_app_r |]. split.
        + apply ids_in_order_snoc; [exact Hids |]. rewrite Hid.
          apply add_no_overflow, is_int_bounded.
          destruct int_bounds as [_ Hmax]. rewrite Hmax in Hlen. lia.
        + rewrite length_app. reflexivity.
      - split; [done |]. split; [exact Hids |].
        unfold httpclient.added. simpl. lia. }
    destruct Hstep as (Hpre1 & Hids1 & Hlen1).
    destruct (IH c1 c2 es2 Hids1) as (Hpre2 & Hids2 & Hes2 & Hlen2);
      [| exact H2 |].
    { rewrite Hlen1. unfold httpclient.added.
      destruct e1; simpl; lia. }
    split; [by etrans |]. split; [exact Hids2 |].
    split; [simpl; by rewrite Hes2 |].
    rewrite Hlen2, Hlen1. unfold httpclient.added.
    destruct e1; simpl; lia.
Qed.

(** X16. [SourceState] returns nil exactly for an index below 0 or not below
    [SourcesCount], and otherwise the state read from the source at that
    index. *)
Theorem SourceState_is_nil_exactly_out_of_range c (index : Z) :
  (httpclient.SourceState_of Source_BaseURL Source_IsBackup Source_Err c index
     = None
   <-> index < 0 \/ httpclient.SourcesCount c <= index) /\
  (forall src,
     0 <= index ->
     httpclient.sources c !! Z.to_nat index = Some src ->
     httpclient.SourceState_of Source_BaseURL Source_IsBackup Source_Err c index
       = Some {| httpclient.BaseURL := Source_BaseURL src;
                 httpclient.StateIsBackup := Source_IsBackup src;
                 httpclient.LastError := Source_Err src |}).
Proof.
  unfold httpclient.SourceState_of, httpclient.SourcesCount.
  destruct (Z.ltb_spec index 0) as [Hneg | Hpos]; cbn [orb].
  { split; [split; [intros _; by left | reflexivity] |]. intros src H0. lia. }
  destruct (Z.leb_spec (Z.of_nat (length (httpclient.sources c))) index)
    as [Hge | Hlt].
  { split; [split; [intros _; by right | reflexivity] |].
    intros src _ Hsrc. apply lookup_lt_Some in Hsrc. lia. }
  destruct (lookup_lt_is_Some_2 (httpclient.sources c) (Z.to_nat index))
    as [x Hx]; [lia |].
  rewrite Hx. cbn. split.
  - split; [discriminate | intros [? | ?]; lia].
  - intros src _ Hsrc. by injection Hsrc as <-.
Qed.

End ClientProperties.

(** ** The client on samples *)


(** A URL with a path is no base URL. *)
Lemma AddSource_rejects_what_is_no_base_url_witness :
  ~ httpclient.is_base_url (str "http://a/b") /\
  httpclient.AddSource SampleClient.add SampleClient.empty (str "http://a/b")
                       (SampleClient.plain (Sample.primary 1 10))
    = (SampleClient.empty, Some (errorString "missing base url")).
Proof.
  assert (Hno : ~ httpclient.is_base_url (str "http://a/b")).
  { intros H. apply MatchString_baseURL_pattern_iff in H. discriminate. }
  split; [exact Hno |].
  exact (AddSource_rejects_what_is_no_base_url (list Z) unit unit
           SampleClient.add SampleClient.empty (str "http://a/b")
           (SampleClient.plain (Sample.primary 1 10)) Hno).
Defined.

Lemma AddSource_hands_base_urls_to_Add_witness :
  httpclient.is_base_url (str "http://a/") /\
  exists src c',
    httpclient.AddSource SampleClient.add SampleClient.empty (str "http://a/")
                         (SampleClient.plain (Sample.primary 1 10))
      = (c', (SampleClient.add (Sample.primary 1 10) src []).2) /\
    (str "http://a/" = httpclient.baseURL src \/
     str "http://a/" = httpclient.baseURL src ++ str "/") /\
    last (httpclient.baseURL src) <> Some "/"%char.
Proof.
  assert (Hurl : httpclient.is_base_url (str "http://a/"))
    by (apply MatchString_baseURL_pattern_iff; reflexivity).
  split; [exact Hurl |].
  destruct (AddSource_hands_base_urls_to_Add (list Z) unit unit
              SampleClient.add SampleClient.empty (str "http://a/")
              (SampleClient.plain (Sample.primary 1 10)) Hurl)
    as (src & c' & _ & Hrel & Hlast & _ & _ & _ & Hcall & _).
  exists src, c'. repeat split; assumption.
Defined.

(** [Add] refuses the options: the one source of the client stays. *)
Lemma AddSource_error_keeps_the_sources_witness :
  httpclient.AddSource SampleClient.add SampleClient.one (str "https://b:80")
                       (SampleClient.plain SampleClient.refused)
    = (SampleClient.one, Some (errorString "invalid parameter")) /\
  httpclient.sources SampleClient.one = [SampleClient.first_source] /\
  httpclient.SourcesCount SampleClient.one = 1.
Proof.
  assert (Hcall : httpclient.AddSource SampleClient.add SampleClient.one
                    (str "https://b:80")
                    (SampleClient.plain SampleClient.refused)
                  = (SampleClient.one, Some (errorString "invalid parameter")))
    by reflexivity.
  split; [exact Hcall |].
  destruct (AddSource_error_keeps_the_sources (list Z) unit unit
              SampleClient.add SampleClient.one (str "https://b:80")
              (SampleClient.plain SampleClient.refused) SampleClient.one
              (errorString "invalid parameter") Hcall)
    as (Hs & _ & _ & Hn).
  split; [exact Hs | exact Hn].
Defined.

(** The three calls of [SampleClient.requests] on the empty client. *)
Lemma source_ids_count_up_witness :
  httpclient.ids_in_order (httpclient.sources SampleClient.empty) /\
  Z.of_nat (length (httpclient.sources SampleClient.empty)
            + length SampleClient.requests) <= GoInt.int_max /\
  exists c' es,
    httpclient.AddSources SampleClient.add SampleClient.empty
                          SampleClient.requests = (c', es) /\
    httpclient.ids_in_order (httpclient.sources c') /\
    length (httpclient.sources c') = 2%nat.
Proof.
  assert (Hids : httpclient.ids_in_order (httpclient.sources SampleClient.empty))
    by (intros i src H; discriminate).
  assert (Hlen : Z.of_nat (length (httpclient.sources SampleClient.empty)
                           + length SampleClient.requests) <= GoInt.int_max)
    by (destruct int_bounds as [_ ->]; simpl; lia).
  split; [exact Hids |]. split; [exact Hlen |].
  destruct (httpclient.AddSources SampleClient.add SampleClient.empty
              SampleClient.requests) as [c' es] eqn:Hrun.
  exists c', es. split; [reflexivity |].
  destruct (source_ids_count_up (list Z) unit unit SampleClient.add
              SampleClient.requests SampleClient.empty c' es Hids Hlen Hrun)
    as (_ & Hids' & _ & Hlen').
  split; [exact Hids' |]. rewrite Hlen'.
  vm_compute in Hrun. injection Hrun as _ <-. reflexivity.
Defined.

(** The states of the client with one source, at the indexes 0 and 1. *)
Lemma SourceState_is_nil_exactly_out_of_range_witness :
  0 <= 0 /\
  httpclient.sources SampleClient.one !! Z.to_nat 0
    = Some SampleClient.first_source /\
  httpclient.SourceState_of httpclient.baseURL httpclient.isBackup
                            httpclient.lastError SampleClient.one 0
    = Some {| httpclient.BaseURL := str "http://a";
              httpclient.StateIsBackup := false;
              httpclient.LastError := None |} /\
  httpclient.SourceState_of httpclient.baseURL httpclient.isBackup
                            httpclient.lastError SampleClient.one 1
    = None.
Proof.
  split; [lia |]. split; [reflexivity |]. split.
  - exact (proj2 (SourceState_is_nil_exactly_out_of_range (list Z) unit unit
                    httpclient.baseURL httpclient.isBackup httpclient.lastError
                    SampleClient.one 0)
             SampleClient.first_source ltac:(lia) eq_refl).
  - apply (proj1 (SourceState_is_nil_exactly_out_of_range (list Z) unit unit
                    httpclient.baseURL httpclient.isBackup httpclient.lastError
                    SampleClient.one 1)).
    right. unfold httpclient.SourcesCount. simpl. lia.
Defined.
